(** * stoker-monitor: the collectors of the Stoker BBQ controller exporter

    The repository holds two generations of the exporter, both [package main]:
    - the telnet (streaming) collector, which reads the probe lines the device
      streams on port 23 ([setTemp], [addError], [reader], [Collect]);
    - the JSON (polling) collector of [main.go], which fetches
      [/stoker.json] every ten seconds ([getStokerStatus], [cleanName],
      [recordMetrics], [doMetrics], [createMetrics]).

    Each is embedded in a module of its own ([Telnet], [Json]) by explicit
    state passing over the [collector] struct.  What the Go standard library
    and the third-party packages do is kept in [Go], [Errors] and
    [Prometheus]; what cannot be written down here ([strconv.ParseFloat],
    [encoding/json], [prometheus.NewConstMetric], Unicode case tables) is a
    [Variable] of the section that uses it. *)

From Stdlib Require Import ZArith Ascii String SpecFloat.
From stdpp Require Import gmap strings list fin_maps.

Open Scope Z_scope.

(* ===================================================================== *)
(** * The Go runtime as far as the collectors use it                      *)
(* ===================================================================== *)

Module Go.

(** A call either returns or panics (index out of range, nil dereference);
    an uncaught panic in a goroutine ends the process. *)
Inductive outcome (A : Type) : Type :=
| Done (a : A)
| Panic (reason : string).
Arguments Done {A} a.
Arguments Panic {A} reason.

#[global] Instance outcome_ret : MRet outcome := λ A a, Done a.
#[global] Instance outcome_bind : MBind outcome := λ A B f m,
  match m with
  | Done a => f a
  | Panic r => Panic r
  end.

Definition panics {A : Type} (m : outcome A) : bool :=
  match m with
  | Done _ => false
  | Panic _ => true
  end.

(** [float64]: an IEEE 754 binary64 datum. *)
Abbreviation float64 := spec_float.

(** [int64] values are integers in [-2^63, 2^63); arithmetic wraps. *)
Definition minInt64 : Z := - 2 ^ 63.
Definition maxInt64 : Z := 2 ^ 63 - 1.

Definition wrap64 (z : Z) : Z := (z + 2 ^ 63) mod 2 ^ 64 - 2 ^ 63.

Definition add64 (x y : Z) : Z := wrap64 (x + y).

Definition isInt64 (z : Z) : Prop := minInt64 <= z <= maxInt64.

(** [float64(v)] for an [int64] [v]: the nearest binary64, ties to even. *)
Definition float64_of_int64 (v : Z) : float64 :=
  binary_normalize 53 1024 v 0 false.

(** [s[i]] on a slice: a run-time panic when [i] is out of range. *)
Definition index {A : Type} (s : list A) (i : nat) : outcome A :=
  match s !! i with
  | Some x => Done x
  | None => Panic "runtime error: index out of range"
  end.

(** ** package strings *)

(** [strings.Split(s, sep)] for a one-byte separator: one more piece than
    there are separators, empty pieces kept. *)
Fixpoint strings_Split (s : string) (sep : ascii) : list string :=
  match s with
  | EmptyString => [EmptyString]
  | String ch rest =>
      if Ascii.eqb ch sep then EmptyString :: strings_Split rest sep
      else match strings_Split rest sep with
           | [] => [String ch EmptyString]
           | w :: ws => String ch w :: ws
           end
  end.

(** [len(s) >= len(suffix) && s[len(s)-len(suffix):] == suffix] *)
Definition strings_HasSuffix (s suffix : string) : bool :=
  (String.length suffix <=? String.length s)%nat
  && String.eqb
       (substring (String.length s - String.length suffix)
                  (String.length suffix) s)
       suffix.

Definition strings_TrimSuffix (s suffix : string) : string :=
  if strings_HasSuffix s suffix
  then substring 0 (String.length s - String.length suffix) s
  else s.

(** [strings.Replace(s, old, new, -1)] for one-byte [old] and [new]. *)
Fixpoint strings_Replace (s : string) (old new : ascii) : string :=
  match s with
  | EmptyString => EmptyString
  | String ch rest =>
      String (if Ascii.eqb ch old then new else ch)
             (strings_Replace rest old new)
  end.

Definition byte_in (lo hi : ascii) (ch : ascii) : bool :=
  (nat_of_ascii lo <=? nat_of_ascii ch)%nat
  && (nat_of_ascii ch <=? nat_of_ascii hi)%nat.

(** [c < utf8.RuneSelf] *)
Definition isASCII (ch : ascii) : bool := (nat_of_ascii ch <? 128)%nat.

Fixpoint string_forallb (f : ascii -> bool) (s : string) : bool :=
  match s with
  | EmptyString => true
  | String ch rest => f ch && string_forallb f rest
  end.

Fixpoint string_map (f : ascii -> ascii) (s : string) : string :=
  match s with
  | EmptyString => EmptyString
  | String ch rest => String (f ch) (string_map f rest)
  end.

Fixpoint string_filter (f : ascii -> bool) (s : string) : string :=
  match s with
  | EmptyString => EmptyString
  | String ch rest =>
      if f ch then String ch (string_filter f rest) else string_filter f rest
  end.

(** ['A' <= c && c <= 'Z'] then [c += 'a' - 'A'] *)
Definition lowerByte (ch : ascii) : ascii :=
  if byte_in "A" "Z" ch then ascii_of_nat (nat_of_ascii ch + 32) else ch.

(** [strings.ToLower]: the byte loop on ASCII-only input, otherwise
    [strings.Map(unicode.ToLower, s)], whose case tables are outside this
    development and are taken as the argument [mapUnicodeLower]. *)
Definition strings_ToLower (mapUnicodeLower : string -> string)
    (s : string) : string :=
  if string_forallb isASCII s then string_map lowerByte s
  else mapUnicodeLower s.

(** ** package regexp, for a pattern of the shape [[^...]+]

    [ReplaceAllString] replaces every maximal non-empty run of bytes that
    the class matches by [repl].  A byte of a multi-byte or invalid UTF-8
    sequence is never in a class of ASCII characters, so a negated ASCII
    class matches it and the run semantics on bytes is that on runes. *)
Fixpoint replaceRuns (matches : ascii -> bool) (repl : string)
    (inRun : bool) (s : string) : string :=
  match s with
  | EmptyString => EmptyString
  | String ch rest =>
      if matches ch then
        (if inRun then replaceRuns matches repl true rest
         else repl +:+ replaceRuns matches repl true rest)
      else String ch (replaceRuns matches repl false rest)
  end.

Definition regexp_ReplaceAllString (matches : ascii -> bool)
    (src repl : string) : string :=
  replaceRuns matches repl false src.

End Go.

(* ===================================================================== *)
(** * github.com/pkg/errors                                               *)
(* ===================================================================== *)

Module Errors.

Inductive arg := ArgString (s : string) | ArgInt (z : Z).

(** An [error] value; the nil error is [None] of [option error]. *)
Inductive error :=
| errorString (msg : string)
| fundamental (format : string) (args : list arg)
| withMessage (cause : error) (format : string) (args : list arg).

Definition New (msg : string) : error := fundamental msg [].

Definition Errorf (format : string) (args : list arg) : error :=
  fundamental format args.

(** "If err is nil, Wrap returns nil." *)
Definition Wrap (err : option error) (msg : string) : option error :=
  match err with
  | None => None
  | Some e => Some (withMessage e msg [])
  end.

(** "If err is nil, Wrapf returns nil." *)
Definition Wrapf (err : option error) (format : string) (args : list arg)
    : option error :=
  match err with
  | None => None
  | Some e => Some (withMessage e format args)
  end.

End Errors.

(* ===================================================================== *)
(** * prometheus/client_golang and zap, as data                           *)
(* ===================================================================== *)

Module Prometheus.

Record Desc := {
  fqName : string;
  help : string;
  variableLabels : list string
}.

Inductive ValueType := CounterValue | GaugeValue | UntypedValue.

(** What a [constMetric] holds. *)
Record Metric := {
  desc : Desc;
  valType : ValueType;
  val : Go.float64;
  labelValues : list string
}.

Definition BuildFQName (namespace subsystem name : string) : string :=
  if String.eqb name "" then ""
  else if negb (String.eqb namespace "") && negb (String.eqb subsystem "")
  then namespace +:+ "_" +:+ subsystem +:+ "_" +:+ name
  else if negb (String.eqb namespace "") then namespace +:+ "_" +:+ name
  else if negb (String.eqb subsystem "") then subsystem +:+ "_" +:+ name
  else name.

Definition NewDesc (fq docString : string) (labels : list string) : Desc :=
  {| fqName := fq; help := docString; variableLabels := labels |}.

End Prometheus.

Module Zap.

Inductive Field :=
| Error (err : Errors.error)
| String (key value : string).

Record Entry := { message : string; fields : list Field }.

(** A logger is modelled by the entries written to it so far. *)
Abbreviation Logger := (list Entry).

Definition Logger_Error (l : Logger) (msg : string) (fs : list Field)
    : Logger :=
  l ++ [{| message := msg; fields := fs |}].

End Zap.

(* ===================================================================== *)
(** * The telnet collector (streaming mode)                               *)
(* ===================================================================== *)

Module Telnet.
Import Go.

Record probe := {
  id : string;
  probeType : string;           (* food or pit *)
  temperature : float64;        (* temp in C *)
  blower : string;              (* blower state *)
  collections : Z               (* int64: how many times collected *)
}.

(** The [collector] struct without its mutex: every method body below is
    one critical section, or a sequence of them, run to completion.  The
    map of [*probe] is a map of probes: no pointer to a probe is held
    outside the map. *)
Record collector := {
  probes : gmap string probe;
  probeMetrics : Prometheus.Desc;
  collectionMetrics : Prometheus.Desc;
  collectErrors : gmap string Z;
  collectErrorMetrics : Prometheus.Desc;
  logger : Zap.Logger
}.

Definition with_probes (c : collector) (m : gmap string probe) :=
  {| probes := m;
     probeMetrics := probeMetrics c;
     collectionMetrics := collectionMetrics c;
     collectErrors := collectErrors c;
     collectErrorMetrics := collectErrorMetrics c;
     logger := logger c |}.

Definition with_collectErrors (c : collector) (m : gmap string Z) :=
  {| probes := probes c;
     probeMetrics := probeMetrics c;
     collectionMetrics := collectionMetrics c;
     collectErrors := m;
     collectErrorMetrics := collectErrorMetrics c;
     logger := logger c |}.

Definition with_logger (c : collector) (l : Zap.Logger) :=
  {| probes := probes c;
     probeMetrics := probeMetrics c;
     collectionMetrics := collectionMetrics c;
     collectErrors := collectErrors c;
     collectErrorMetrics := collectErrorMetrics c;
     logger := l |}.

Definition metricsNamespace : string := "stoker".

Definition newFuncMetric (metricName docString : string)
    (labels : list string) : Prometheus.Desc :=
  Prometheus.NewDesc
    (Prometheus.BuildFQName metricsNamespace "" metricName)
    docString labels.

(** [zapNewProduction] is what [zap.NewProduction()] returned. *)
Definition newCollector (zapNewProduction : Zap.Logger * option Errors.error)
    : option collector * option Errors.error :=
  let c :=
    {| probes := ∅;
       probeMetrics :=
         newFuncMetric "probe_status" "probe status"
           ["type"; "id"; "blower"];
       collectionMetrics :=
         newFuncMetric "probe_collections_total"
           "number of times data has been collected" ["type"; "id"];
       collectErrors := ∅;
       collectErrorMetrics :=
         newFuncMetric "collect_failures_total"
           "number of errors while collecting metrics" ["type"];
       logger := [] |} in
  match zapNewProduction with
  | (_, Some err) => (None, Errors.Wrap (Some err) "failed to create logger")
  | (l, None) => (Some (with_logger c l), None)
  end.

Definition addError (t : string) (c : collector) : collector :=
  let v := match collectErrors c !! t with
           | Some v => v
           | None => 0
           end in
  let v := add64 v 1 in
  with_collectErrors c (<[t := v]> (collectErrors c)).

Section Collector.

(** [strconv.ParseFloat(s, bitSize)]: the value and the error. *)
Variable ParseFloat : string -> Z -> float64 * option Errors.error.

(** [prometheus.NewConstMetric(desc, valueType, value, labelValues...)] *)
Variable NewConstMetric :
  Prometheus.Desc -> Prometheus.ValueType -> float64 -> list string ->
  Prometheus.Metric * option Errors.error.

Definition setTemp (parts : list string) (c : collector)
    : outcome (collector * option Errors.error) :=
  id ← index parts 0;
  if negb (strings_HasSuffix id ":") then
    (* not a probe *)
    mret (c, None)
  else
  let id := strings_TrimSuffix id ":" in
  let l := length parts in
  (* after the switch: parse, then create or update under the lock *)
  let store (probeType : string) :=
    p8 ← index parts 8;
    match ParseFloat p8 32 with
    | (_, Some err) =>
        mret (addError "parseFloat" c,
              Errors.Wrapf (Some err) "failed to parse temperature %q"
                [Errors.ArgString p8])
    | (t, None) =>
        match probes c !! id with
        | Some p =>
            let p := {| id := Telnet.id p;
                        probeType := Telnet.probeType p;
                        temperature := t;
                        blower := "unknown";
                        collections := add64 (collections p) 1 |} in
            mret (with_probes c (<[id := p]> (probes c)), None)
        | None =>
            let p := {| id := id;
                        probeType := probeType;
                        temperature := t;
                        blower := "unknown";
                        collections := 1 |} in
            mret (with_probes c (<[Telnet.id p := p]> (probes c)), None)
        end
    end in
  if (l =? 11)%nat then store "food"
  else if (11 <? l)%nat then
    p10 ← index parts 10;
    if negb (String.eqb p10 "PID:") then
      mret (addError "unknownProbe" c,
            Some (Errors.Errorf "unknown probe type %q"
                    [Errors.ArgString p10]))
    else store "pit"
  else
    (* usually status messages, etc *)
    mret (c, None).

(** [reader] on a stream that delivers [lines] and then fails with
    [readErr] (every stream ends so: the loop has no other exit). *)
Fixpoint reader (lines : list string) (readErr : Errors.error)
    (c : collector) : outcome (collector * option Errors.error) :=
  match lines with
  | [] =>
      mret (addError "readLine" c,
            Errors.Wrap (Some readErr) "ReadLine failed")
  | line :: rest =>
      let parts := strings_Split line " " in
      '(c, err) ← setTemp parts c;
      let c :=
        match err with
        | Some e =>
            with_logger c
              (Zap.Logger_Error (logger c) "failed to set probe status"
                 [Zap.Error e])
        | None => c
        end in
      reader rest readErr c
  end.

(** One turn of the first loop of [Collect]; [ch] is what has been sent
    on the channel. *)
Definition collectError (st : collector * list Prometheus.Metric)
    (kv : string * Z) : collector * list Prometheus.Metric :=
  let '(c, ch) := st in
  let '(k, v) := kv in
  match NewConstMetric (collectErrorMetrics c) Prometheus.CounterValue
          (float64_of_int64 v) [k] with
  | (_, Some err) =>
      (with_logger c
         (Zap.Logger_Error (logger c) "failed to create metric"
            [Zap.Error err; Zap.String "metric" "errors"]),
       ch)
  | (m, None) => (c, ch ++ [m])
  end.

(** One turn of the second loop of [Collect]. *)
Definition collectProbe (st : collector * list Prometheus.Metric)
    (kv : string * probe) : collector * list Prometheus.Metric :=
  let '(c, ch) := st in
  let v := kv.2 in
  let '(c, ch) :=
    match NewConstMetric (probeMetrics c) Prometheus.GaugeValue
            (temperature v) [probeType v; id v; blower v] with
    | (_, Some err) =>
        (with_logger c
           (Zap.Logger_Error (logger c) "failed to create metric"
              [Zap.Error err; Zap.String "metric" "probes"]),
         ch)
    | (m, None) => (c, ch ++ [m])
    end in
  match NewConstMetric (collectionMetrics c) Prometheus.CounterValue
          (float64_of_int64 (collections v)) [probeType v; id v] with
  | (_, Some err) =>
      (with_logger c
         (Zap.Logger_Error (logger c) "failed to create metric"
            [Zap.Error err; Zap.String "metric" "collections"]),
       ch)
  | (m, None) => (c, ch ++ [m])
  end.

(** [Collect]: both loops range over a map that the loop bodies only
    read, in the order of [map_to_list] (Go leaves the order open). *)
Definition Collect (c : collector) (ch : list Prometheus.Metric)
    : collector * list Prometheus.Metric :=
  let errs := map_to_list (collectErrors c) in
  let st := foldl collectError (c, ch) errs in
  let ps := map_to_list (probes c) in
  foldl collectProbe st ps.

(** [Describe]: the descriptors sent on the channel, in this order. *)
Definition Describe (c : collector) (ch : list Prometheus.Desc)
    : list Prometheus.Desc :=
  ch ++ [probeMetrics c; collectionMetrics c; collectErrorMetrics c].

(** What one turn of the goroutine of [main] meets: [net.DialTimeout]
    fails, or it gives a connection that delivers [lines] and then fails
    with [readErr]. *)
Inductive dial :=
| DialFailed (err : Errors.error)
| Connected (lines : list string) (readErr : Errors.error).

Definition isDialFailed (d : dial) : bool :=
  match d with
  | DialFailed _ => true
  | Connected _ _ => false
  end.

(** The goroutine of [main], for the dials it gets through: a failed dial
    is counted (and slept on), a connection is read until it fails, and the
    error of [reader] is dropped. *)
Fixpoint connectLoop (dials : list dial) (c : collector)
    : outcome collector :=
  match dials with
  | [] => mret c
  | DialFailed _ :: rest => connectLoop rest (addError "dial" c)
  | Connected lines readErr :: rest =>
      '(c, _) ← reader lines readErr c;
      connectLoop rest c
  end.

(** ** The words of the specification, to state what [setTemp] does *)

(** The count of failures of one category, zero when it has no entry. *)
Definition errorCount (c : collector) (t : string) : Z :=
  default 0 (collectErrors c !! t).

(** The spec's [recordReading]: create the entity with the given kind, or
    update temperature and count of the one that is there. *)
Definition recordReading (id kind : string) (t : float64) (c : collector)
    : collector :=
  let p :=
    match probes c !! id with
    | Some p => {| id := Telnet.id p;
                   probeType := probeType p;
                   temperature := t;
                   blower := "unknown";
                   collections := add64 (collections p) 1 |}
    | None => {| id := id;
                 probeType := kind;
                 temperature := t;
                 blower := "unknown";
                 collections := 1 |}
    end in
  with_probes c (<[id := p]> (probes c)).

(** A record that [setTemp] applies: an identifier token, the shape of a
    food or a pit record, and a temperature token that parses to [t]. *)
Definition validRecord (parts : list string) (id kind : string)
    (t : float64) : Prop :=
  exists id0 tok8,
    parts !! 0%nat = Some id0 /\
    strings_HasSuffix id0 ":" = true /\
    id = strings_TrimSuffix id0 ":" /\
    ((length parts = 11%nat /\ kind = "food") \/
     ((11 < length parts)%nat /\ parts !! 10%nat = Some "PID:" /\
      kind = "pit")) /\
    parts !! 8%nat = Some tok8 /\
    ParseFloat tok8 32 = (t, None).

(** What holds of every entity the collector stores: it is filed under its
    own identifier, it is a food or a pit probe, and its blower is
    unknown. *)
Definition storeInvariant (c : collector) : Prop :=
  forall k p, probes c !! k = Some p ->
    id p = k /\
    (probeType p = "food" \/ probeType p = "pit") /\
    blower p = "unknown".

End Collector.

End Telnet.

(* ===================================================================== *)
(** * The JSON collector of main.go (polling mode)                        *)
(* ===================================================================== *)

Module Json.
Import Go.

Record sensor := {
  sensor_ID : string;
  sensor_Name : string;
  sensor_Temp : float64;
  sensor_Blower : option string   (* *string *)
}.

Record blower := {
  blower_ID : string;
  blower_Name : string;
  blower_On : Z
}.

(** [stokerResponse], the [Stoker] struct flattened. *)
Record stokerResponse := {
  Sensors : list sensor;
  Blowers : list blower
}.

(** The [collector] struct without its mutex and its [*http.Client]. *)
Record collector := {
  interval : Z;
  stokerURL : string;
  sensors : gmap string sensor;
  sensorMetrics : Prometheus.Desc;
  blowers : gmap string blower;
  blowerMetrics : Prometheus.Desc;
  collections : Z;                (* int64 *)
  collectionMetrics : Prometheus.Desc;
  failures : Z;                   (* int64 *)
  failureMetrics : Prometheus.Desc;
  logger : Zap.Logger
}.

Definition with_maps (c : collector) (ss : gmap string sensor)
    (bs : gmap string blower) : collector :=
  {| interval := interval c;
     stokerURL := stokerURL c;
     sensors := ss;
     sensorMetrics := sensorMetrics c;
     blowers := bs;
     blowerMetrics := blowerMetrics c;
     collections := collections c;
     collectionMetrics := collectionMetrics c;
     failures := failures c;
     failureMetrics := failureMetrics c;
     logger := logger c |}.

Definition with_counters (c : collector) (n f : Z) : collector :=
  {| interval := interval c;
     stokerURL := stokerURL c;
     sensors := sensors c;
     sensorMetrics := sensorMetrics c;
     blowers := blowers c;
     blowerMetrics := blowerMetrics c;
     collections := n;
     collectionMetrics := collectionMetrics c;
     failures := f;
     failureMetrics := failureMetrics c;
     logger := logger c |}.

Definition with_logger (c : collector) (l : Zap.Logger) : collector :=
  {| interval := interval c;
     stokerURL := stokerURL c;
     sensors := sensors c;
     sensorMetrics := sensorMetrics c;
     blowers := blowers c;
     blowerMetrics := blowerMetrics c;
     collections := collections c;
     collectionMetrics := collectionMetrics c;
     failures := failures c;
     failureMetrics := failureMetrics c;
     logger := l |}.

Definition metricsNamespace : string := "stoker".

Definition newFuncMetric (metricName docString : string)
    (labels : list string) : Prometheus.Desc :=
  Prometheus.NewDesc
    (Prometheus.BuildFQName metricsNamespace "" metricName)
    docString labels.

(** [urlParse] is the error of [url.Parse(stokerURL)], [zapNewProduction]
    what [zap.NewProduction()] returned. *)
Definition newCollector (stokerURL : string)
    (urlParse : option Errors.error)
    (zapNewProduction : Zap.Logger * option Errors.error)
    : option collector * option Errors.error :=
  match urlParse with
  | Some err =>
      (None, Errors.Wrapf (Some err) "Failed to parse url %q"
               [Errors.ArgString stokerURL])
  | None =>
      let c :=
        {| interval := 10 * 1000000000;
           stokerURL := stokerURL;
           sensors := ∅;
           sensorMetrics :=
             newFuncMetric "sensor_temperature" "sensor temperature"
               ["id"; "name"; "blower"];
           blowers := ∅;
           blowerMetrics :=
             newFuncMetric "blower_state" "blower state" ["id"; "name"];
           collections := 0;
           collectionMetrics :=
             newFuncMetric "collections_total"
               "number of times data has been collected" [];
           failures := 0;
           failureMetrics :=
             newFuncMetric "failures_total"
               "number of errors while collecting metrics" [];
           logger := [] |} in
      match zapNewProduction with
      | (_, Some err) =>
          (None, Errors.Wrap (Some err) "failed to create logger")
      | (l, None) => (Some (with_logger c l), None)
      end
  end.

(** What one [c.client.Do(req)] brings back: an error, or a response with
    its status code and what [ioutil.ReadAll(res.Body)] will return. *)
Inductive roundTrip :=
| DoFailed (err : Errors.error)
| Responded (StatusCode : Z) (body : string * option Errors.error).

(** The characters [a-z0-9_]. *)
Definition nameChar (ch : ascii) : bool :=
  byte_in "a" "z" ch || byte_in "0" "9" ch || Ascii.eqb ch "_".

(** The class of [nameLabelRegex], [[^a-z0-9_]]. *)
Definition nameLabelClass (ch : ascii) : bool := negb (nameChar ch).

(** Dereferencing a pointer: a run-time panic on nil. *)
Definition deref {A : Type} (p : option A) : outcome A :=
  match p with
  | Some a => Done a
  | None =>
      Panic "runtime error: invalid memory address or nil pointer dereference"
  end.

Section Collector.

(** [json.Unmarshal(data, &s)] on a zero [stokerResponse]. *)
Variable json_Unmarshal : string -> stokerResponse * option Errors.error.

(** [strings.Map(unicode.ToLower, s)], used off the ASCII path. *)
Variable mapUnicodeLower : string -> string.

(** [prometheus.NewConstMetric(desc, valueType, value, labelValues...)] *)
Variable NewConstMetric :
  Prometheus.Desc -> Prometheus.ValueType -> float64 -> list string ->
  Prometheus.Metric * option Errors.error.

Definition getStokerStatus (c : collector) (rt : roundTrip)
    : option stokerResponse * option Errors.error :=
  match rt with
  | DoFailed e =>
      let err := Some e in
      (None, Errors.Wrap err "http request failed")
  | Responded StatusCode body =>
      (* res, err := c.client.Do(req) with err == nil *)
      let err : option Errors.error := None in
      if negb (StatusCode =? 200) then
        (None, Errors.Wrapf err "unexpected HTTP status %d"
                 [Errors.ArgInt StatusCode])
      else
        match body with
        | (_, Some e) =>
            (None, Errors.Wrap (Some e) "failed to read response body")
        | (data, None) =>
            match json_Unmarshal data with
            | (_, Some e) =>
                (None,
                 Errors.Wrap (Some e) "failed to unmarshal response body")
            | (s, None) =>
                (* ensure we have valid data *)
                if (length (Sensors s) =? 0)%nat then
                  (None, Some (Errors.New "no sensors found"))
                else (Some s, None)
            end
        end
  end.

Definition cleanName (s : string) : string :=
  let s := strings_Replace s " " "_" in
  let s := strings_ToLower mapUnicodeLower s in
  regexp_ReplaceAllString nameLabelClass s "".

Definition addSensor (m : gmap string sensor) (v : sensor)
    : gmap string sensor :=
  if String.eqb (sensor_ID v) "" then m
  else
    let v := {| sensor_ID := sensor_ID v;
                sensor_Name := cleanName (sensor_Name v);
                sensor_Temp := sensor_Temp v;
                sensor_Blower := sensor_Blower v |} in
    <[sensor_ID v := v]> m.

Definition addBlower (m : gmap string blower) (v : blower)
    : gmap string blower :=
  if String.eqb (blower_ID v) "" then m
  else
    let v := {| blower_ID := blower_ID v;
                blower_Name := cleanName (blower_Name v);
                blower_On := blower_On v |} in
    <[blower_ID v := v]> m.

Definition recordMetrics (c : collector) (rt : roundTrip)
    : outcome (collector * option Errors.error) :=
  let '(s, err) := getStokerStatus c rt in
  match err with
  | Some _ => mret (c, Errors.Wrap err "failed to get stoker status")
  | None =>
      s ← deref s;
      let sensors := foldl addSensor ∅ (Sensors s) in
      let blowers := foldl addBlower ∅ (Blowers s) in
      (* just set to the new values. we do not need to merge *)
      mret (with_maps c sensors blowers, None)
  end.

Definition doMetrics (c : collector) (rt : roundTrip) : outcome collector :=
  let errCount := 0 in
  '(c, err) ← recordMetrics c rt;
  let '(c, errCount) :=
    match err with
    | Some e =>
        (with_logger c
           (Zap.Logger_Error (logger c) "failed to record metrics"
              [Zap.Error e]),
         1)
    | None => (c, errCount)
    end in
  mret (with_counters c (add64 (collections c) 1)
          (add64 (failures c) errCount)).

(** [loop] until the context is done: one collection at once, one more at
    every tick; [rts] are the round trips of these collections. *)
Fixpoint loop (c : collector) (rts : list roundTrip) : outcome collector :=
  match rts with
  | [] => mret c
  | rt :: rest => c ← doMetrics c rt; loop c rest
  end.

(** The outcome of one [NewConstMetric] in [createMetrics]: the metric is
    appended, or the error is logged under the name [which]. *)
Definition appendOrLog (st : collector * list Prometheus.Metric)
    (r : Prometheus.Metric * option Errors.error) (which : string)
    : collector * list Prometheus.Metric :=
  let '(c, metrics) := st in
  match r with
  | (m, None) => (c, metrics ++ [m])
  | (_, Some err) =>
      (with_logger c
         (Zap.Logger_Error (logger c) "failed to create metric"
            [Zap.Error err; Zap.String "metric" which]),
       metrics)
  end.

Definition sensorMetric (st : collector * list Prometheus.Metric)
    (kv : string * sensor) : collector * list Prometheus.Metric :=
  let v := kv.2 in
  let blower := match sensor_Blower v with
                | Some b => b
                | None => ""
                end in
  appendOrLog st
    (NewConstMetric (sensorMetrics st.1) Prometheus.GaugeValue
       (sensor_Temp v) [sensor_ID v; sensor_Name v; blower])
    "sensorMetrics".

Definition blowerMetric (st : collector * list Prometheus.Metric)
    (kv : string * blower) : collector * list Prometheus.Metric :=
  let v := kv.2 in
  appendOrLog st
    (NewConstMetric (blowerMetrics st.1) Prometheus.GaugeValue
       (float64_of_int64 (blower_On v)) [blower_ID v; blower_Name v])
    "blowerMetrics".

(** [createMetrics]; the two loops range in the order of [map_to_list]
    (Go leaves the order open). *)
Definition createMetrics (c : collector)
    : collector * list Prometheus.Metric :=
  let st := (c, []) in
  let st :=
    appendOrLog st
      (NewConstMetric (failureMetrics st.1) Prometheus.CounterValue
         (float64_of_int64 (failures st.1)) [])
      "failureMetrics" in
  let st :=
    appendOrLog st
      (NewConstMetric (collectionMetrics st.1) Prometheus.CounterValue
         (float64_of_int64 (collections st.1)) [])
      "collectionMetrics" in
  let st := foldl sensorMetric st (map_to_list (sensors c)) in
  foldl blowerMetric st (map_to_list (blowers c)).

Definition Collect (c : collector) (ch : list Prometheus.Metric)
    : collector * list Prometheus.Metric :=
  let '(c, metrics) := createMetrics c in
  (c, ch ++ metrics).

(** [Describe]: the descriptors sent on the channel, in this order. *)
Definition Describe (c : collector) (ch : list Prometheus.Desc)
    : list Prometheus.Desc :=
  ch ++ [sensorMetrics c; blowerMetrics c; collectionMetrics c;
         failureMetrics c].

(** A round trip answered with a status other than 200. *)
Definition otherStatus (rt : roundTrip) : bool :=
  match rt with
  | DoFailed _ => false
  | Responded StatusCode _ => negb (StatusCode =? 200)
  end.

(** What [recordMetrics] stores for a sensor and for a blower of the
    payload: the entry with its name cleaned. *)
Definition storedSensor (v : sensor) : sensor :=
  {| sensor_ID := sensor_ID v;
     sensor_Name := cleanName (sensor_Name v);
     sensor_Temp := sensor_Temp v;
     sensor_Blower := sensor_Blower v |}.

Definition storedBlower (v : blower) : blower :=
  {| blower_ID := blower_ID v;
     blower_Name := cleanName (blower_Name v);
     blower_On := blower_On v |}.

End Collector.

(** ** The words of the specification on names *)

(** ASCII white space: tab, line feed, vertical tab, form feed, carriage
    return, space. *)
Definition isWhitespace (ch : ascii) : bool :=
  byte_in "009" "013" ch || Ascii.eqb ch " ".

(** The spec's sanitization: "lowercased, whitespace to underscore, non
    [a-z0-9_] stripped". *)
Definition sanitizeSpec (s : string) : string :=
  string_filter nameChar
    (string_map (fun ch => if isWhitespace ch then "_"%char else ch)
       (string_map lowerByte s)).

End Json.

(* ===================================================================== *)
(** * The first program: dumping the stream to standard output            *)
(* ===================================================================== *)

Module Dump.
Import Go.

(** [fmt.Println(a, b)] for two strings: a space between the operands; the
    line is one entry of the output. *)
Definition fmt_Println (a b : string) : string := a +:+ " " +:+ b.

(** [reader] on a stream that delivers [lines] and then fails; [stdout] is
    what has been printed. *)
Fixpoint reader (lines : list string) (stdout : list string)
    : outcome (list string) :=
  match lines with
  | [] => mret stdout
  | line :: rest =>
      let parts := strings_Split line " " in
      let l := length parts in
      stdout ←
        (if (l =? 11)%nat then
           (* foodprobe *)
           p9 ← index parts 9;
           mret (stdout ++ [fmt_Println "food: " p9])
         else if (11 <? l)%nat then
           (* pit *)
           p10 ← index parts 10;
           if String.eqb p10 "PID:" then
             p9 ← index parts 9;
             mret (stdout ++ [fmt_Println "pit: " p9])
           else mret stdout
         else mret stdout);
      reader rest stdout
  end.

End Dump.

(* ===================================================================== *)
(** * Instances of the library functions, to run the collectors           *)
(* ===================================================================== *)

Module Strconv.
Import Go.

(** Leading decimal digits of [s], accumulated on [acc]; the number of
    digits read and the rest of the string. *)
Fixpoint digits (s : string) (acc : Z) (n : nat) : Z * nat * string :=
  match s with
  | EmptyString => (acc, n, EmptyString)
  | String ch rest =>
      if byte_in "0" "9" ch
      then digits rest (10 * acc + (Z.of_nat (nat_of_ascii ch) - 48)) (S n)
      else (acc, n, s)
  end.

(** [m / 10^k], rounded to nearest even in the format [prec], [emax]: the
    quotient is cut with [prec + 3] bits to spare and the lost part is kept
    as a sticky last bit. *)
Definition roundDecimal (prec emax : Z) (neg : bool) (m : Z) (k : nat)
    : float64 :=
  if m =? 0 then S754_zero neg
  else
    let d := 10 ^ Z.of_nat k in
    let s := prec + 3 + Z.log2 d + 1 in
    let q := (m * 2 ^ s) / d in
    let sticky := if (m * 2 ^ s) mod d =? 0 then 0 else 1 in
    let m' := 2 * q + sticky in
    binary_normalize prec emax (if neg then - m' else m') (- s - 1) false.

(** A binary32 datum as the binary64 of the same value. *)
Definition widen (f : float64) : float64 :=
  match f with
  | S754_finite sg m e => binary_normalize 53 1024 (cond_Zopp sg (Zpos m)) e false
  | _ => f
  end.

Definition syntaxError (s : string) : Errors.error :=
  Errors.errorString
    ("strconv.ParseFloat: parsing " +:+ s +:+ ": invalid syntax").

Definition rangeError (s : string) : Errors.error :=
  Errors.errorString
    ("strconv.ParseFloat: parsing " +:+ s +:+ ": value out of range").

(** [strconv.ParseFloat] on plain decimal literals: an optional sign,
    digits, an optional point and digits.  The other spellings Go accepts
    (exponents, hexadecimal, underscores, inf, nan) are a syntax error here:
    this instance serves to run the collector on sample lines, and no
    theorem is specific to it. *)
Definition ParseFloat (s : string) (bitSize : Z)
    : float64 * option Errors.error :=
  let '(neg, body) :=
    match s with
    | String "-" rest => (true, rest)
    | String "+" rest => (false, rest)
    | _ => (false, s)
    end in
  let '(ip, ni, r1) := digits body 0 0 in
  let parsed : option (Z * nat) :=
    match r1 with
    | EmptyString => if (ni =? 0)%nat then None else Some (ip, 0%nat)
    | String "." r2 =>
        let '(m, nf, r3) := digits r2 ip 0 in
        match r3 with
        | EmptyString => if (ni + nf =? 0)%nat then None else Some (m, nf)
        | _ => None
        end
    | _ => None
    end in
  match parsed with
  | None => (S754_zero false, Some (syntaxError s))
  | Some (m, k) =>
      let f := if bitSize =? 32
               then widen (roundDecimal 24 128 neg m k)
               else roundDecimal 53 1024 neg m k in
      match f with
      | S754_infinity _ => (f, Some (rangeError s))
      | _ => (f, None)
      end
  end.

End Strconv.

Module Sample.

(** A [NewConstMetric] that checks what the library checks first: one
    label value for each variable label of the descriptor. *)
Definition NewConstMetric (d : Prometheus.Desc) (t : Prometheus.ValueType)
    (v : Go.float64) (labelValues : list string)
    : Prometheus.Metric * option Errors.error :=
  let m := {| Prometheus.desc := d; Prometheus.valType := t;
              Prometheus.val := v; Prometheus.labelValues := labelValues |} in
  if (length labelValues =? length (Prometheus.variableLabels d))%nat
  then (m, None)
  else (m, Some (Errors.errorString "inconsistent label cardinality")).

(** A [NewConstMetric] that fails on every call, as on a descriptor that
    carries an error. *)
Definition rejectAll (d : Prometheus.Desc) (t : Prometheus.ValueType)
    (v : Go.float64) (labelValues : list string)
    : Prometheus.Metric * option Errors.error :=
  ({| Prometheus.desc := d; Prometheus.valType := t;
      Prometheus.val := v; Prometheus.labelValues := labelValues |},
   Some (Errors.errorString "invalid descriptor")).

(** The first sample line of the source: a food probe. *)
Definition foodLine : string :=
  "2B0000110A442730: 1.0 4.0 39.2 -7.5 -0.2 0.2 -0.0 0.3 32.4".

(** The third sample line of the source: a pit probe. *)
Definition pitLine : string :=
  "2A0000110A314B30: 1.0 3.8 38.8 142.5 3.6 0.1 3.7 91.7 197.0 PID: NORM tgt:107.2 error:77.7 drive:2.0 istate:18.2 on:1 off:0 blwr:on".

(** The telnet collector as [newCollector] leaves it. *)
Definition telnet0 : Telnet.collector :=
  {| Telnet.probes := ∅;
     Telnet.probeMetrics :=
       Telnet.newFuncMetric "probe_status" "probe status"
         ["type"; "id"; "blower"];
     Telnet.collectionMetrics :=
       Telnet.newFuncMetric "probe_collections_total"
         "number of times data has been collected" ["type"; "id"];
     Telnet.collectErrors := ∅;
     Telnet.collectErrorMetrics :=
       Telnet.newFuncMetric "collect_failures_total"
         "number of errors while collecting metrics" ["type"];
     Telnet.logger := [] |}.

(** The food line with one more, empty, token: a trailing space. *)
Definition foodLine11 : string :=
  "2B0000110A442730: 1.0 4.0 39.2 -7.5 -0.2 0.2 -0.0 0.3 32.4 ".

(** The pit line with another marker at index 10. *)
Definition unknownLine : string :=
  "2A0000110A314B30: 1.0 3.8 38.8 142.5 3.6 0.1 3.7 91.7 197.0 XYZ: NORM tgt:107.2 error:77.7 drive:2.0 istate:18.2 on:1 off:0 blwr:on".

(** Eleven tokens, and no number at index 8. *)
Definition badTempLine : string :=
  "2B0000110A442730: 1.0 4.0 39.2 -7.5 -0.2 0.2 -0.0 --- 32.4 ".

(** A record of pit shape under the identifier of the food probe. *)
Definition foodAsPitLine : string :=
  "2B0000110A442730: 1.0 3.8 38.8 142.5 3.6 0.1 3.7 91.7 197.0 PID: NORM tgt:107.2 error:77.7 drive:2.0 istate:18.2 on:1 off:0 blwr:on".

(** A status message: few tokens. *)
Definition statusLine : string := "stoker: login".

(** The JSON collector as [newCollector] leaves it. *)
Definition json0 : Json.collector :=
  {| Json.interval := 10 * 1000000000;
     Json.stokerURL := "http://192.168.1.103:80/stoker.json";
     Json.sensors := ∅;
     Json.sensorMetrics :=
       Json.newFuncMetric "sensor_temperature" "sensor temperature"
         ["id"; "name"; "blower"];
     Json.blowers := ∅;
     Json.blowerMetrics :=
       Json.newFuncMetric "blower_state" "blower state" ["id"; "name"];
     Json.collections := 0;
     Json.collectionMetrics :=
       Json.newFuncMetric "collections_total"
         "number of times data has been collected" [];
     Json.failures := 0;
     Json.failureMetrics :=
       Json.newFuncMetric "failures_total"
         "number of errors while collecting metrics" [];
     Json.logger := [] |}.

(** No case tables: off the ASCII path the string is left as it is.  The
    samples are ASCII. *)
Definition mapUnicodeLower (s : string) : string := s.

Definition pitSensor : Json.sensor :=
  {| Json.sensor_ID := "2A0000110A314B30";
     Json.sensor_Name := "Pit Sensor";
     Json.sensor_Temp := S754_finite false 6931321301499904 (-45);
     Json.sensor_Blower := Some "3C0000001ADE7605" |}.

Definition eggBlower : Json.blower :=
  {| Json.blower_ID := "3C0000001ADE7605";
     Json.blower_Name := "Big Green Egg";
     Json.blower_On := 0 |}.

Definition onePit : Json.stokerResponse :=
  {| Json.Sensors := [pitSensor]; Json.Blowers := [eggBlower] |}.

Definition noSensors : Json.stokerResponse :=
  {| Json.Sensors := []; Json.Blowers := [] |}.

Definition onePitJson : string :=
  "{'stoker':{'sensors':[{'id':'2A0000110A314B30','name':'Pit Sensor','tc':197.0,'blower':'3C0000001ADE7605'}],'blowers':[{'id':'3C0000001ADE7605','name':'Big Green Egg','on':0}]}}".

Definition noSensorsJson : string := "{'stoker':{'sensors':[],'blowers':[]}}".

(** A decoder that knows two documents (written with ' for the double
    quote) and rejects every other. *)
Definition json_Unmarshal (data : string)
    : Json.stokerResponse * option Errors.error :=
  if String.eqb data onePitJson then (onePit, None)
  else if String.eqb data noSensorsJson then (noSensors, None)
  else (noSensors, Some (Errors.errorString "invalid character")).

(** A name with a tab in it. *)
Definition tabbedName : string := String "a" (String "009" "b").

End Sample.

(* ===================================================================== *)
(** * Facts about the runtime functions                                   *)
(* ===================================================================== *)

Section GoFacts.
Import Go.

Lemma wrap64_id (z : Z) : isInt64 z -> wrap64 z = z.
Proof.
  unfold isInt64, minInt64, maxInt64, wrap64. intros Hz.
  rewrite Z.mod_small; lia.
Qed.

Lemma wrap64_range (z : Z) : isInt64 (wrap64 z).
Proof.
  unfold isInt64, minInt64, maxInt64, wrap64.
  pose proof (Z.mod_pos_bound (z + 2 ^ 63) (2 ^ 64)). lia.
Qed.

Lemma wrap64_add_l (a b : Z) : wrap64 (wrap64 a + b) = wrap64 (a + b).
Proof.
  unfold wrap64. f_equal.
  replace ((a + 2 ^ 63) mod 2 ^ 64 - 2 ^ 63 + b + 2 ^ 63)
    with ((a + 2 ^ 63) mod 2 ^ 64 + b) by lia.
  rewrite Zplus_mod_idemp_l. f_equal. lia.
Qed.

(** Two increments are one addition of two, in [int64] arithmetic. *)
Lemma add64_twice (z : Z) : add64 (add64 z 1) 1 = add64 z 2.
Proof.
  unfold add64. rewrite wrap64_add_l. f_equal. lia.
Qed.

Lemma add64_exact (x y : Z) : isInt64 (x + y) -> add64 x y = x + y.
Proof. intros H. unfold add64. by apply wrap64_id. Qed.

Lemma add64_range (x y : Z) : isInt64 (add64 x y).
Proof. apply wrap64_range. Qed.

(** [strings.Split] never returns the empty slice. *)
Lemma strings_Split_cons (s : string) (sep : ascii) :
  exists w ws, strings_Split s sep = w :: ws.
Proof.
  induction s as [|ch rest IH]; simpl.
  - by eexists _, _.
  - destruct (Ascii.eqb ch sep); [by eexists _, _|].
    destruct IH as (w & ws & ->). by eexists _, _.
Qed.

Lemma index_Some {A : Type} (s : list A) (i : nat) (x : A) :
  s !! i = Some x -> index s i = Done x.
Proof. unfold index. by intros ->. Qed.

Lemma lookup_lt_length {A : Type} (s : list A) (i : nat) :
  (i < length s)%nat -> exists x, s !! i = Some x.
Proof. intros H. by apply lookup_lt_is_Some_2 in H as [x Hx]; eauto. Qed.

Lemma string_filter_ext (f g : ascii -> bool) (s : string) :
  (forall ch, f ch = g ch) -> string_filter f s = string_filter g s.
Proof.
  intros H. induction s as [|ch rest IH]; simpl; [done|].
  by rewrite H, IH.
Qed.

Lemma string_filter_forallb (f : ascii -> bool) (s : string) :
  string_forallb f (string_filter f s) = true.
Proof.
  induction s as [|ch rest IH]; simpl; [done|].
  destruct (f ch) eqn:E; simpl; [by rewrite E|done].
Qed.

(** Replacing the runs of a class by the empty string keeps exactly the
    bytes outside the class, in their order. *)
Lemma replaceRuns_empty (matches : ascii -> bool) (inRun : bool)
    (s : string) :
  replaceRuns matches "" inRun s
    = string_filter (fun ch => negb (matches ch)) s.
Proof.
  revert inRun. induction s as [|ch rest IH]; intros inRun; simpl; [done|].
  destruct (matches ch); simpl.
  - destruct inRun; by rewrite IH.
  - by rewrite IH.
Qed.

Lemma strings_Replace_isASCII (s : string) :
  string_forallb isASCII s = true ->
  string_forallb isASCII (strings_Replace s " " "_") = true.
Proof.
  induction s as [|ch rest IH]; simpl; [done|].
  intros [Hch Hrest]%andb_true_iff. rewrite (IH Hrest), andb_true_r.
  by destruct (Ascii.eqb ch " ").
Qed.

End GoFacts.

(* ===================================================================== *)
(** * The telnet collector: what [setTemp] does to the store              *)
(* ===================================================================== *)

Section TelnetFacts.
Import Go Telnet.

Variable ParseFloat : string -> Z -> float64 * option Errors.error.

Lemma addError_probes (t : string) (c : collector) :
  probes (addError t c) = probes c.
Proof. reflexivity. Qed.

Lemma addError_count (t : string) (c : collector) :
  errorCount (addError t c) t = add64 (errorCount c t) 1.
Proof.
  unfold errorCount, addError. simpl. rewrite lookup_insert_eq. simpl.
  by destruct (collectErrors c !! t).
Qed.

Lemma addError_other (t k : string) (c : collector) :
  k <> t -> collectErrors (addError t c) !! k = collectErrors c !! k.
Proof. intros H. unfold addError. simpl. by rewrite lookup_insert_ne. Qed.

Lemma recordReading_lookup (id kind : string) (t : float64) (c : collector) :
  exists p, probes (recordReading id kind t c) !! id = Some p /\
            temperature p = t /\
            blower p = "unknown" /\
            (probes c !! id = None ->
               probeType p = kind /\ collections p = 1 /\ Telnet.id p = id) /\
            (forall old, probes c !! id = Some old ->
               probeType p = probeType old /\
               collections p = add64 (collections old) 1 /\
               Telnet.id p = Telnet.id old).
Proof.
  unfold recordReading. simpl. rewrite lookup_insert_eq.
  eexists. split; [reflexivity|].
  destruct (probes c !! id) as [old|] eqn:E; simpl;
    repeat split; try done; intros; simplify_eq; done.
Qed.

Lemma recordReading_other (id kind k : string) (t : float64) (c : collector) :
  k <> id -> probes (recordReading id kind t c) !! k = probes c !! k.
Proof. intros H. unfold recordReading. simpl. by rewrite lookup_insert_ne. Qed.

Lemma recordReading_collectErrors (id kind : string) (t : float64)
    (c : collector) :
  collectErrors (recordReading id kind t c) = collectErrors c.
Proof. reflexivity. Qed.

(** [setTemp] on a valid record is [recordReading]. *)
Lemma setTemp_valid (parts : list string) (id kind : string) (t : float64)
    (c : collector) :
  validRecord ParseFloat parts id kind t ->
  setTemp ParseFloat parts c = Done (recordReading id kind t c, None).
Proof.
  intros (id0 & tok8 & H0 & Hsuf & -> & Hshape & H8 & Hpf).
  unfold setTemp. rewrite (index_Some _ _ _ H0). simpl.
  rewrite Hsuf. simpl.
  destruct Hshape as [[Hlen ->] | (Hlen & H10 & ->)].
  - rewrite Hlen. simpl. rewrite (index_Some _ _ _ H8). simpl.
    rewrite Hpf. unfold recordReading.
    by destruct (probes c !! strings_TrimSuffix id0 ":").
  - destruct (length parts =? 11)%nat eqn:E11;
      [apply Nat.eqb_eq in E11; lia|].
    destruct (11 <? length parts)%nat eqn:Egt;
      [|apply Nat.ltb_ge in Egt; lia].
    rewrite (index_Some _ _ _ H10). simpl.
    rewrite (index_Some _ _ _ H8). simpl.
    rewrite Hpf. unfold recordReading.
    by destruct (probes c !! strings_TrimSuffix id0 ":").
Qed.

Lemma setTemp_not_probe (parts : list string) (id0 : string)
    (c : collector) :
  parts !! 0%nat = Some id0 ->
  strings_HasSuffix id0 ":" = false ->
  setTemp ParseFloat parts c = Done (c, None).
Proof.
  intros H0 Hsuf. unfold setTemp. rewrite (index_Some _ _ _ H0). simpl.
  by rewrite Hsuf.
Qed.

Lemma setTemp_short (parts : list string) (id0 : string) (c : collector) :
  parts !! 0%nat = Some id0 ->
  (length parts < 11)%nat ->
  setTemp ParseFloat parts c = Done (c, None).
Proof.
  intros H0 Hlen. unfold setTemp. rewrite (index_Some _ _ _ H0). simpl.
  destruct (strings_HasSuffix id0 ":"); [|done]. simpl.
  destruct (length parts =? 11)%nat eqn:E11;
    [apply Nat.eqb_eq in E11; lia|].
  destruct (11 <? length parts)%nat eqn:Egt;
    [apply Nat.ltb_lt in Egt; lia|].
  done.
Qed.

Lemma setTemp_unknown (parts : list string) (id0 p10 : string)
    (c : collector) :
  parts !! 0%nat = Some id0 ->
  strings_HasSuffix id0 ":" = true ->
  (11 < length parts)%nat ->
  parts !! 10%nat = Some p10 ->
  p10 <> "PID:" ->
  setTemp ParseFloat parts c =
    Done (addError "unknownProbe" c,
          Some (Errors.Errorf "unknown probe type %q" [Errors.ArgString p10])).
Proof.
  intros H0 Hsuf Hlen H10 Hne.
  unfold setTemp. rewrite (index_Some _ _ _ H0). simpl.
  rewrite Hsuf. simpl.
  destruct (length parts =? 11)%nat eqn:E11;
    [apply Nat.eqb_eq in E11; lia|].
  destruct (11 <? length parts)%nat eqn:Egt;
    [|apply Nat.ltb_ge in Egt; lia].
  rewrite (index_Some _ _ _ H10). simpl.
  apply String.eqb_neq in Hne. by rewrite Hne.
Qed.

Lemma setTemp_parse_error (parts : list string) (id0 tok8 : string)
    (v : float64) (e : Errors.error) (c : collector) :
  parts !! 0%nat = Some id0 ->
  strings_HasSuffix id0 ":" = true ->
  length parts = 11%nat \/
    ((11 < length parts)%nat /\ parts !! 10%nat = Some "PID:") ->
  parts !! 8%nat = Some tok8 ->
  ParseFloat tok8 32 = (v, Some e) ->
  setTemp ParseFloat parts c =
    Done (addError "parseFloat" c,
          Some (Errors.withMessage e "failed to parse temperature %q"
                  [Errors.ArgString tok8])).
Proof.
  intros H0 Hsuf Hshape H8 Hpf.
  unfold setTemp. rewrite (index_Some _ _ _ H0). simpl.
  rewrite Hsuf. simpl.
  destruct Hshape as [Hlen | [Hlen H10]].
  - rewrite Hlen. simpl. rewrite (index_Some _ _ _ H8). simpl.
    by rewrite Hpf.
  - destruct (length parts =? 11)%nat eqn:E11;
      [apply Nat.eqb_eq in E11; lia|].
    destruct (11 <? length parts)%nat eqn:Egt;
      [|apply Nat.ltb_ge in Egt; lia].
    rewrite (index_Some _ _ _ H10). simpl.
    rewrite (index_Some _ _ _ H8). simpl.
    by rewrite Hpf.
Qed.

(** Every call of [setTemp] on a non-empty slice returns, and it has done
    one of three things to the collector. *)
Lemma setTemp_cases (parts : list string) (c : collector) :
  parts <> [] ->
  exists c' e,
    setTemp ParseFloat parts c = Done (c', e) /\
    ((c' = c /\ e = None) \/
     (exists cat, c' = addError cat c /\ is_Some e) \/
     (exists id kind t,
        validRecord ParseFloat parts id kind t /\
        c' = recordReading id kind t c /\ e = None)).
Proof.
  intros Hne.
  destruct parts as [|id0 rest] eqn:Eparts; [done|]. rewrite <- Eparts in *.
  assert (H0 : parts !! 0%nat = Some id0) by by rewrite Eparts.
  destruct (strings_HasSuffix id0 ":") eqn:Hsuf.
  2: { eexists _, _. split; [by eapply setTemp_not_probe|by left]. }
  destruct (Nat.lt_ge_cases (length parts) 11) as [Hlt|Hge].
  { eexists _, _. split; [by eapply setTemp_short|by left]. }
  destruct (lookup_lt_length parts 8) as [tok8 H8]; [lia|].
  assert (Hshape :
    (length parts = 11%nat \/
       ((11 < length parts)%nat /\ parts !! 10%nat = Some "PID:")) \/
    (exists p10, (11 < length parts)%nat /\ parts !! 10%nat = Some p10 /\
                 p10 <> "PID:")).
  { destruct (decide (length parts = 11%nat)) as [|Hne11]; [by left; left|].
    destruct (lookup_lt_length parts 10) as [p10 H10]; [lia|].
    destruct (decide (p10 = "PID:")) as [->|Hp].
    - left; right. split; [lia|done].
    - right. exists p10. split; [lia|done]. }
  destruct Hshape as [Hshape | (p10 & Hlen & H10 & Hp)].
  2: { eexists _, _. split; [by eapply setTemp_unknown|].
       right; left. by eexists. }
  destruct (ParseFloat tok8 32) as [t [e|]] eqn:Hpf.
  { eexists _, _. split; [by eapply setTemp_parse_error|].
    right; left. by eexists. }
  assert (Hv : exists kind,
             validRecord ParseFloat parts (strings_TrimSuffix id0 ":") kind t).
  { destruct Hshape as [Hlen | [Hlen H10]].
    - exists "food". exists id0, tok8. repeat split; try done. by left.
    - exists "pit". exists id0, tok8. repeat split; try done. by right. }
  destruct Hv as [kind Hv].
  eexists _, _. split; [by apply setTemp_valid|].
  right; right. by eexists _, _, _.
Qed.

(** No call of [setTemp] changes the kind of an entity that is there. *)
Lemma setTemp_probeType_stable (parts : list string) (c c' : collector)
    (e : option Errors.error) (id : string) (p : probe) :
  setTemp ParseFloat parts c = Done (c', e) ->
  probes c !! id = Some p ->
  exists p', probes c' !! id = Some p' /\ probeType p' = probeType p.
Proof.
  intros Hrun Hp.
  assert (Hne : parts <> []).
  { intros ->. discriminate Hrun. }
  destruct (setTemp_cases parts c Hne) as (c1 & e1 & Hrun1 & Hcase).
  rewrite Hrun in Hrun1. injection Hrun1 as <- <-.
  destruct Hcase as [[-> _] | [(cat & -> & _) | (id1 & kind & t & _ & -> & _)]].
  - by exists p.
  - exists p. by rewrite addError_probes.
  - destruct (decide (id = id1)) as [->|Hid].
    + destruct (recordReading_lookup id1 kind t c) as (p' & Hl & _ & _ & _ & Hold).
      exists p'. split; [done|]. by apply Hold.
    + exists p. by rewrite recordReading_other.
Qed.

(** [reader] returns on every finite stream, and keeps the kind of every
    entity that was there when it started. *)
Lemma reader_probeType_stable (lines : list string) (readErr : Errors.error)
    (c : collector) (id : string) (p : probe) :
  probes c !! id = Some p ->
  exists c' e p',
    reader ParseFloat lines readErr c = Done (c', e) /\
    probes c' !! id = Some p' /\ probeType p' = probeType p.
Proof.
  revert c p. induction lines as [|line rest IH]; intros c p Hp.
  - simpl. eexists _, _, p. split; [done|]. by rewrite addError_probes.
  - simpl.
    assert (Hne : strings_Split line " " <> []).
    { destruct (strings_Split_cons line " ") as (w & ws & ->). done. }
    destruct (setTemp_cases (strings_Split line " ") c Hne)
      as (c1 & e1 & Hrun & _).
    rewrite Hrun. simpl.
    destruct (setTemp_probeType_stable _ _ _ _ _ _ Hrun Hp)
      as (p1 & Hp1 & Hk1).
    set (c2 := match e1 with
               | Some e => with_logger c1 _
               | None => c1
               end).
    assert (Hp2 : probes c2 !! id = Some p1).
    { subst c2. by destruct e1. }
    destruct (IH c2 p1 Hp2) as (c' & e & p' & Hr & Hl & Hk).
    exists c', e, p'. split; [done|]. split; [done|]. congruence.
Qed.

(** C3. A line whose first token ends with ':' and which splits on single
    spaces into exactly 11 tokens is a food record: token 8 is the one given
    to ParseFloat, and when it parses to [t] the record is applied as a food
    reading, so the entity holds temperature [t], and kind food when the
    record created it. *)
Theorem C3_eleven_tokens_food (line id0 : string) (c : collector) :
  let parts := strings_Split line " " in
  parts !! 0%nat = Some id0 ->
  strings_HasSuffix id0 ":" = true ->
  length parts = 11%nat ->
  exists tok8,
    parts !! 8%nat = Some tok8 /\
    forall t, ParseFloat tok8 32 = (t, None) ->
      let id := strings_TrimSuffix id0 ":" in
      setTemp ParseFloat parts c = Done (recordReading id "food" t c, None) /\
      exists p,
        probes (recordReading id "food" t c) !! id = Some p /\
        temperature p = t /\
        (probes c !! id = None -> probeType p = "food").
Proof.
  intros parts H0 Hsuf Hlen.
  destruct (lookup_lt_length parts 8) as [tok8 H8]; [lia|].
  exists tok8. split; [done|]. intros t Hpf id. split.
  - apply setTemp_valid. exists id0, tok8. repeat split; try done. by left.
  - destruct (recordReading_lookup id "food" t c)
      as (p & Hl & Ht & _ & Hnew & _).
    exists p. repeat split; try done. intros Hnone. by apply Hnew.
Qed.

(** C4. A probe line that fails to parse adds one to one failure category
    and leaves the probes alone: more than 11 tokens and a token 10 other
    than "PID:" count as "unknownProbe", with token 10 in the error; a food
    or pit line whose token 8 ParseFloat rejects counts as "parseFloat".
    The count is an int64: one more, in int64 arithmetic. *)
Theorem C4_parse_failures (line id0 : string) (c : collector) :
  let parts := strings_Split line " " in
  parts !! 0%nat = Some id0 ->
  strings_HasSuffix id0 ":" = true ->
  (forall p10,
     (11 < length parts)%nat -> parts !! 10%nat = Some p10 ->
     p10 <> "PID:" ->
     setTemp ParseFloat parts c =
       Done (addError "unknownProbe" c,
             Some (Errors.Errorf "unknown probe type %q"
                     [Errors.ArgString p10]))) /\
  (forall tok8 v e,
     length parts = 11%nat \/
       ((11 < length parts)%nat /\ parts !! 10%nat = Some "PID:") ->
     parts !! 8%nat = Some tok8 ->
     ParseFloat tok8 32 = (v, Some e) ->
     setTemp ParseFloat parts c =
       Done (addError "parseFloat" c,
             Some (Errors.withMessage e "failed to parse temperature %q"
                     [Errors.ArgString tok8]))) /\
  (forall cat,
     probes (addError cat c) = probes c /\
     errorCount (addError cat c) cat = add64 (errorCount c cat) 1 /\
     (isInt64 (errorCount c cat + 1) ->
        errorCount (addError cat c) cat = errorCount c cat + 1) /\
     (forall k, k <> cat ->
        collectErrors (addError cat c) !! k = collectErrors c !! k)).
Proof.
  intros parts H0 Hsuf. split; [|split].
  - intros p10 Hlen H10 Hne. by eapply setTemp_unknown.
  - intros tok8 v e Hshape H8 Hpf. by eapply setTemp_parse_error.
  - intros cat. split; [apply addError_probes|].
    split; [apply addError_count|]. split.
    + intros Hr. rewrite addError_count. by apply add64_exact.
    + intros k Hk. by apply addError_other.
Qed.

(** C5. A line whose first token does not end with ':', and a line of fewer
    than 11 tokens, is passed over: [setTemp] returns the collector as it
    was, with the nil error. *)
Theorem C5_not_a_probe_line (line : string) (c : collector) :
  let parts := strings_Split line " " in
  (exists id0,
     parts !! 0%nat = Some id0 /\ strings_HasSuffix id0 ":" = false) \/
  (length parts < 11)%nat ->
  setTemp ParseFloat parts c = Done (c, None).
Proof.
  intros parts [(id0 & H0 & Hsuf) | Hlen].
  - by eapply setTemp_not_probe.
  - destruct (strings_Split_cons line " ") as (w & ws & E).
    eapply (setTemp_short _ w); [|done]. subst parts. by rewrite E.
Qed.

(** C6. The kind of an entity is that of the record that created it: once a
    valid record of kind [kind] has created the entity, [reader] returns on
    every further stream of lines with the entity still of that kind. *)
Theorem C6_kind_fixed_at_creation (parts : list string) (id kind : string)
    (t : float64) (c : collector) (lines : list string)
    (readErr : Errors.error) :
  validRecord ParseFloat parts id kind t ->
  probes c !! id = None ->
  exists c1 c2 e p,
    setTemp ParseFloat parts c = Done (c1, None) /\
    reader ParseFloat lines readErr c1 = Done (c2, e) /\
    probes c2 !! id = Some p /\
    probeType p = kind.
Proof.
  intros Hv Hnone.
  destruct (recordReading_lookup id kind t c)
    as (p1 & Hl1 & _ & _ & Hnew & _).
  destruct (Hnew Hnone) as (Hk1 & _).
  destruct (reader_probeType_stable lines readErr _ id p1 Hl1)
    as (c2 & e & p & Hr & Hl & Hk).
  exists (recordReading id kind t c), c2, e, p.
  split; [by apply setTemp_valid|]. split; [done|]. split; [done|].
  congruence.
Qed.

(** C7. Applying a valid record twice leaves the entity with the
    temperature of the record and a count that is two more than before, 2
    when the entity was not there; the count is an int64, and two more is
    meant in int64 arithmetic, which is the integer sum whenever that sum is
    an int64. *)
Theorem C7_same_record_twice (parts : list string) (id kind : string)
    (t : float64) (c : collector) :
  validRecord ParseFloat parts id kind t ->
  exists c1 c2 p2,
    setTemp ParseFloat parts c = Done (c1, None) /\
    setTemp ParseFloat parts c1 = Done (c2, None) /\
    probes c2 !! id = Some p2 /\
    temperature p2 = t /\
    collections p2 =
      match probes c !! id with
      | Some p => add64 (collections p) 2
      | None => 2
      end /\
    (forall p, probes c !! id = Some p ->
       isInt64 (collections p + 2) ->
       collections p2 = collections p + 2).
Proof.
  intros Hv.
  set (c1 := recordReading id kind t c).
  destruct (recordReading_lookup id kind t c)
    as (p1 & Hl1 & _ & _ & Hnew1 & Hold1).
  destruct (recordReading_lookup id kind t c1)
    as (p2 & Hl2 & Ht2 & _ & _ & Hold2).
  destruct (Hold2 p1 Hl1) as (_ & Hc2 & _).
  assert (Hcount : collections p2 =
                   match probes c !! id with
                   | Some p => add64 (collections p) 2
                   | None => 2
                   end).
  { rewrite Hc2. destruct (probes c !! id) as [p|] eqn:E.
    - destruct (Hold1 p eq_refl) as (_ & -> & _). apply add64_twice.
    - destruct (Hnew1 eq_refl) as (_ & -> & _). reflexivity. }
  exists c1, (recordReading id kind t c1), p2.
  split; [by apply setTemp_valid|]. split; [by apply setTemp_valid|].
  split; [done|]. split; [done|]. split; [done|].
  intros p Hp Hr. rewrite Hcount, Hp. by apply add64_exact.
Qed.

(** C2. The first sample line splits into 10 tokens, so [setTemp] passes it
    over; the pit sample line creates the entity 2A0000110A314B30 of kind
    pit, with the temperature parsed from token 8, which is 91.7. *)
Theorem C2_sample_lines (c : collector) :
  setTemp ParseFloat (strings_Split Sample.foodLine " ") c = Done (c, None) /\
  forall t, ParseFloat "91.7" 32 = (t, None) ->
    let id := "2A0000110A314B30" in
    exists c' p,
      setTemp ParseFloat (strings_Split Sample.pitLine " ") c
        = Done (c', None) /\
      probes c' !! id = Some p /\
      temperature p = t /\
      (probes c !! id = None ->
         probeType p = "pit" /\ collections p = 1 /\ Telnet.id p = id).
Proof.
  split.
  - by apply (setTemp_short _ "2B0000110A442730:"); vm_compute.
  - intros t Hpf id.
    destruct (recordReading_lookup id "pit" t c)
      as (p & Hl & Ht & _ & Hnew & _).
    exists (recordReading id "pit" t c), p.
    split; [|done].
    apply setTemp_valid. exists "2A0000110A314B30:", "91.7".
    repeat split; try done. right. repeat split; try done.
    vm_compute. lia.
Qed.

End TelnetFacts.

(* ===================================================================== *)
(** * The telnet collector on the sample lines                            *)
(* ===================================================================== *)

Example telnet0_new :
  Telnet.newCollector ([], None) = (Some Sample.telnet0, None).
Proof. reflexivity. Qed.

Example foodLine_tokens :
  Go.strings_Split Sample.foodLine " " =
    ["2B0000110A442730:"; "1.0"; "4.0"; "39.2"; "-7.5"; "-0.2"; "0.2";
     "-0.0"; "0.3"; "32.4"].
Proof. reflexivity. Qed.

Example pitLine_tokens :
  length (Go.strings_Split Sample.pitLine " ") = 19%nat /\
  Go.strings_Split Sample.pitLine " " !! 8%nat = Some "91.7" /\
  Go.strings_Split Sample.pitLine " " !! 9%nat = Some "197.0" /\
  Go.strings_Split Sample.pitLine " " !! 10%nat = Some "PID:".
Proof. repeat split. Qed.

(** With a trailing space the food line has its eleventh token, the empty
    one, and token 8 is the Celsius column. *)
Example foodLine11_tokens :
  length (Go.strings_Split Sample.foodLine11 " ") = 11%nat /\
  Go.strings_Split Sample.foodLine11 " " !! 8%nat = Some "0.3" /\
  Go.strings_Split Sample.foodLine11 " " !! 10%nat = Some "".
Proof. repeat split. Qed.

(** [ParseFloat] with bitSize 32 rounds to binary32: 32.4 becomes
    8493466 * 2^-18 = 32.400001525878906..., as in the README's output. *)
Example ParseFloat_32_4 :
  Strconv.ParseFloat "32.4" 32
    = (S754_finite false 4559894837460992 (-47), None) /\
  4559894837460992 = 8493466 * 2 ^ 29.
Proof. split; reflexivity. Qed.

Lemma foodLine11_valid :
  Telnet.validRecord Strconv.ParseFloat
    (Go.strings_Split Sample.foodLine11 " ")
    "2B0000110A442730" "food" (Strconv.ParseFloat "0.3" 32).1.
Proof.
  exists "2B0000110A442730:", "0.3".
  repeat split; try reflexivity. by left.
Qed.

Lemma C3_eleven_tokens_food_witness :
  let parts := Go.strings_Split Sample.foodLine11 " " in
  (parts !! 0%nat = Some "2B0000110A442730:" /\
   Go.strings_HasSuffix "2B0000110A442730:" ":" = true /\
   length parts = 11%nat) /\
  exists c' p,
    Telnet.setTemp Strconv.ParseFloat parts Sample.telnet0
      = Go.Done (c', None) /\
    Telnet.probes c' !! "2B0000110A442730" = Some p /\
    Telnet.probeType p = "food" /\
    Telnet.temperature p = (Strconv.ParseFloat "0.3" 32).1.
Proof.
  intros parts.
  assert (H0 : parts !! 0%nat = Some "2B0000110A442730:") by reflexivity.
  assert (Hs : Go.strings_HasSuffix "2B0000110A442730:" ":" = true)
    by reflexivity.
  assert (Hl : length parts = 11%nat) by reflexivity.
  split; [done|].
  destruct (C3_eleven_tokens_food Strconv.ParseFloat Sample.foodLine11
              "2B0000110A442730:" Sample.telnet0 H0 Hs Hl)
    as (tok8 & H8 & H).
  assert (Ht : tok8 = "0.3") by (vm_compute in H8; congruence).
  subst tok8.
  destruct (H (Strconv.ParseFloat "0.3" 32).1 eq_refl)
    as (Hrun & p & Hp & Htemp & Hkind).
  eexists _, p. split; [exact Hrun|]. split; [exact Hp|].
  split; [|exact Htemp]. apply Hkind. reflexivity.
Defined.

Lemma C4_parse_failures_witness :
  let parts := Go.strings_Split Sample.unknownLine " " in
  let parts' := Go.strings_Split Sample.badTempLine " " in
  (parts !! 0%nat = Some "2A0000110A314B30:" /\
   Go.strings_HasSuffix "2A0000110A314B30:" ":" = true /\
   parts' !! 0%nat = Some "2B0000110A442730:" /\
   Go.strings_HasSuffix "2B0000110A442730:" ":" = true) /\
  Telnet.setTemp Strconv.ParseFloat parts Sample.telnet0 =
    Go.Done (Telnet.addError "unknownProbe" Sample.telnet0,
             Some (Errors.Errorf "unknown probe type %q"
                     [Errors.ArgString "XYZ:"])) /\
  Telnet.setTemp Strconv.ParseFloat parts' Sample.telnet0 =
    Go.Done (Telnet.addError "parseFloat" Sample.telnet0,
             Some (Errors.withMessage (Strconv.syntaxError "---")
                     "failed to parse temperature %q"
                     [Errors.ArgString "---"])) /\
  Telnet.probes (Telnet.addError "unknownProbe" Sample.telnet0)
    = Telnet.probes Sample.telnet0 /\
  Telnet.errorCount (Telnet.addError "unknownProbe" Sample.telnet0)
    "unknownProbe" = 1.
Proof.
  intros parts parts'.
  assert (H0 : parts !! 0%nat = Some "2A0000110A314B30:") by reflexivity.
  assert (Hs : Go.strings_HasSuffix "2A0000110A314B30:" ":" = true)
    by reflexivity.
  assert (H0' : parts' !! 0%nat = Some "2B0000110A442730:") by reflexivity.
  assert (Hs' : Go.strings_HasSuffix "2B0000110A442730:" ":" = true)
    by reflexivity.
  split; [done|].
  destruct (C4_parse_failures Strconv.ParseFloat Sample.unknownLine
              "2A0000110A314B30:" Sample.telnet0 H0 Hs)
    as (Hunknown & _ & Hcount).
  destruct (C4_parse_failures Strconv.ParseFloat Sample.badTempLine
              "2B0000110A442730:" Sample.telnet0 H0' Hs')
    as (_ & Hparse & _).
  split; [|split].
  - apply Hunknown; [vm_compute; lia|reflexivity|discriminate].
  - apply (Hparse "---" (S754_zero false) (Strconv.syntaxError "---"));
      [by left|reflexivity|reflexivity].
  - destruct (Hcount "unknownProbe") as (Hp & _ & Hc & _).
    split; [exact Hp|]. apply Hc. vm_compute. split; discriminate.
Defined.

Lemma C5_not_a_probe_line_witness :
  let parts := Go.strings_Split Sample.statusLine " " in
  ((exists id0,
      parts !! 0%nat = Some id0 /\ Go.strings_HasSuffix id0 ":" = false) \/
   (length parts < 11)%nat) /\
  Telnet.setTemp Strconv.ParseFloat parts Sample.telnet0
    = Go.Done (Sample.telnet0, None).
Proof.
  intros parts.
  assert (H : (exists id0,
                 parts !! 0%nat = Some id0 /\
                 Go.strings_HasSuffix id0 ":" = false) \/
              (length parts < 11)%nat).
  { right. vm_compute. lia. }
  split; [exact H|].
  exact (C5_not_a_probe_line Strconv.ParseFloat Sample.statusLine
           Sample.telnet0 H).
Defined.

Lemma C6_kind_fixed_at_creation_witness :
  let parts := Go.strings_Split Sample.foodLine11 " " in
  let t := (Strconv.ParseFloat "0.3" 32).1 in
  let lines := [Sample.foodAsPitLine; Sample.pitLine] in
  (Telnet.validRecord Strconv.ParseFloat parts "2B0000110A442730" "food" t /\
   Telnet.probes Sample.telnet0 !! "2B0000110A442730" = None) /\
  exists c1 c2 e p,
    Telnet.setTemp Strconv.ParseFloat parts Sample.telnet0
      = Go.Done (c1, None) /\
    Telnet.reader Strconv.ParseFloat lines (Errors.errorString "EOF") c1
      = Go.Done (c2, e) /\
    Telnet.probes c2 !! "2B0000110A442730" = Some p /\
    Telnet.probeType p = "food".
Proof.
  intros parts t lines.
  assert (Hn : Telnet.probes Sample.telnet0 !! "2B0000110A442730" = None)
    by reflexivity.
  split; [split; [exact foodLine11_valid|exact Hn]|].
  exact (C6_kind_fixed_at_creation Strconv.ParseFloat parts
           "2B0000110A442730" "food" t Sample.telnet0 lines
           (Errors.errorString "EOF") foodLine11_valid Hn).
Defined.

(** A record of pit shape under the identifier of a food probe is applied,
    and the probe stays a food probe. *)
Example food_then_pit_shape :
  exists c e,
    Telnet.reader Strconv.ParseFloat
      [Sample.foodLine11; Sample.foodAsPitLine] (Errors.errorString "EOF")
      Sample.telnet0 = Go.Done (c, e) /\
    Telnet.probes c !! "2B0000110A442730" =
      Some {| Telnet.id := "2B0000110A442730";
              Telnet.probeType := "food";
              Telnet.temperature := (Strconv.ParseFloat "91.7" 32).1;
              Telnet.blower := "unknown";
              Telnet.collections := 2 |} /\
    Telnet.errorCount c "readLine" = 1.
Proof. eexists _, _. split; [reflexivity|]. split; reflexivity. Qed.

Lemma C7_same_record_twice_witness :
  let parts := Go.strings_Split Sample.foodLine11 " " in
  let t := (Strconv.ParseFloat "0.3" 32).1 in
  Telnet.validRecord Strconv.ParseFloat parts "2B0000110A442730" "food" t /\
  exists c1 c2 p2,
    Telnet.setTemp Strconv.ParseFloat parts Sample.telnet0
      = Go.Done (c1, None) /\
    Telnet.setTemp Strconv.ParseFloat parts c1 = Go.Done (c2, None) /\
    Telnet.probes c2 !! "2B0000110A442730" = Some p2 /\
    Telnet.temperature p2 = t /\
    Telnet.collections p2 = 2.
Proof.
  intros parts t. split; [exact foodLine11_valid|].
  destruct (C7_same_record_twice Strconv.ParseFloat parts
              "2B0000110A442730" "food" t Sample.telnet0 foodLine11_valid)
    as (c1 & c2 & p2 & H1 & H2 & Hl & Ht & Hc & _).
  exists c1, c2, p2. repeat split; assumption.
Defined.

Lemma C2_sample_lines_witness :
  let t := (Strconv.ParseFloat "91.7" 32).1 in
  Strconv.ParseFloat "91.7" 32 = (t, None) /\
  Telnet.setTemp Strconv.ParseFloat
    (Go.strings_Split Sample.foodLine " ") Sample.telnet0
    = Go.Done (Sample.telnet0, None) /\
  exists c' p,
    Telnet.setTemp Strconv.ParseFloat
      (Go.strings_Split Sample.pitLine " ") Sample.telnet0
      = Go.Done (c', None) /\
    Telnet.probes c' !! "2A0000110A314B30" = Some p /\
    Telnet.probeType p = "pit" /\
    Telnet.temperature p = t.
Proof.
  intros t.
  assert (Hpf : Strconv.ParseFloat "91.7" 32 = (t, None)) by reflexivity.
  split; [exact Hpf|].
  destruct (C2_sample_lines Strconv.ParseFloat Sample.telnet0)
    as (Hfood & Hpit).
  split; [exact Hfood|].
  destruct (Hpit t Hpf) as (c' & p & Hrun & Hl & Ht & Hnew).
  exists c', p. repeat split; try assumption.
  apply Hnew. reflexivity.
Defined.

(** C2, in the words of the specification, fails on both lines: after the
    first sample line the collector of [newCollector] has no entity
    2B0000110A442730, and after the pit line the entity 2A0000110A314B30
    holds what the token 91.7 parses to, which is not what 197.0 parses
    to. *)
Lemma C2_sample_lines_counterexample :
  ~ (exists c p,
       Telnet.setTemp Strconv.ParseFloat
         (Go.strings_Split Sample.foodLine " ") Sample.telnet0
         = Go.Done (c, None) /\
       Telnet.probes c !! "2B0000110A442730" = Some p /\
       Telnet.probeType p = "food" /\
       Telnet.temperature p = (Strconv.ParseFloat "32.4" 32).1) /\
  ~ (exists c p,
       Telnet.setTemp Strconv.ParseFloat
         (Go.strings_Split Sample.pitLine " ") Sample.telnet0
         = Go.Done (c, None) /\
       Telnet.probes c !! "2A0000110A314B30" = Some p /\
       Telnet.probeType p = "pit" /\
       Telnet.temperature p = (Strconv.ParseFloat "197.0" 32).1).
Proof.
  split.
  - intros (c & p & Hrun & Hl & _).
    rewrite (setTemp_short Strconv.ParseFloat _ "2B0000110A442730:")
      in Hrun; [|reflexivity|vm_compute; lia].
    injection Hrun as <-. discriminate Hl.
  - intros (c & p & Hrun & Hl & _ & Ht).
    assert (Hv : Telnet.validRecord Strconv.ParseFloat
                   (Go.strings_Split Sample.pitLine " ")
                   "2A0000110A314B30" "pit"
                   (Strconv.ParseFloat "91.7" 32).1).
    { exists "2A0000110A314B30:", "91.7".
      repeat split; try reflexivity. right.
      repeat split; try reflexivity. vm_compute. lia. }
    remember (Strconv.ParseFloat "91.7" 32).1 as t eqn:Et.
    rewrite (setTemp_valid _ _ _ _ _ _ Hv) in Hrun.
    assert (Hc : c = Telnet.recordReading "2A0000110A314B30" "pit" t
                       Sample.telnet0) by congruence.
    subst c.
    destruct (recordReading_lookup "2A0000110A314B30" "pit" t Sample.telnet0)
      as (p' & Hl' & Ht' & _).
    assert (Hp : p = p') by congruence. subst p'.
    rewrite Et in Ht'.
    rewrite Ht' in Ht. vm_compute in Ht. discriminate Ht.
Qed.

(* ===================================================================== *)
(** * The JSON collector: one collection cycle                            *)
(* ===================================================================== *)

Section JsonFacts.
Import Go Json.

Variable json_Unmarshal : string -> stokerResponse * option Errors.error.
Variable mapUnicodeLower : string -> string.

Local Abbreviation getStatus := (getStokerStatus json_Unmarshal).
Local Abbreviation record := (recordMetrics json_Unmarshal mapUnicodeLower).
Local Abbreviation cycle := (doMetrics json_Unmarshal mapUnicodeLower).
Local Abbreviation clean := (cleanName mapUnicodeLower).

(** On a status other than 200 the error that is wrapped is the nil error
    of [client.Do], and wrapping nil gives nil. *)
Lemma getStokerStatus_non200 (c : collector) (status : Z)
    (body : string * option Errors.error) :
  status <> 200 ->
  getStatus c (Responded status body) = (None, None).
Proof.
  intros H. unfold getStokerStatus.
  destruct (status =? 200) eqn:E; [apply Z.eqb_eq in E; done|].
  reflexivity.
Qed.

Lemma recordMetrics_non200 (c : collector) (status : Z)
    (body : string * option Errors.error) :
  status <> 200 ->
  record c (Responded status body) =
    Panic "runtime error: invalid memory address or nil pointer dereference".
Proof.
  intros H. unfold recordMetrics.
  by rewrite getStokerStatus_non200.
Qed.

Lemma doMetrics_non200 (c : collector) (status : Z)
    (body : string * option Errors.error) :
  status <> 200 ->
  cycle c (Responded status body) =
    Panic "runtime error: invalid memory address or nil pointer dereference".
Proof.
  intros H. unfold doMetrics.
  by rewrite recordMetrics_non200.
Qed.

(** The three ways [getStokerStatus] can end. *)
Lemma getStokerStatus_cases (c : collector) (rt : roundTrip) :
  (exists status body, rt = Responded status body /\ status <> 200) \/
  (exists s, getStatus c rt = (Some s, None)) \/
  (exists e, getStatus c rt = (None, Some e)).
Proof.
  destruct rt as [e | status [data [e|]]].
  - right; right. by eexists.
  - destruct (decide (status = 200)) as [->|Hs].
    + right; right. by eexists.
    + left. by eexists _, _.
  - destruct (decide (status = 200)) as [->|Hs].
    + unfold getStokerStatus. simpl.
      destruct (json_Unmarshal data) as [s [e|]].
      * right; right. by eexists.
      * destruct (length (Sensors s) =? 0)%nat.
        -- right; right. by eexists.
        -- right; left. by eexists.
    + left. by eexists _, _.
Qed.

Lemma getStokerStatus_no_sensors (c : collector) (data : string)
    (s : stokerResponse) :
  json_Unmarshal data = (s, None) ->
  Sensors s = [] ->
  getStatus c (Responded 200 (data, None)) =
    (None, Some (Errors.New "no sensors found")).
Proof.
  intros Hj Hs. unfold getStokerStatus. simpl.
  by rewrite Hj, Hs.
Qed.

Lemma doMetrics_success (c : collector) (rt : roundTrip)
    (s : stokerResponse) :
  getStatus c rt = (Some s, None) ->
  cycle c rt =
    Done (with_counters
            (with_maps c (foldl (addSensor mapUnicodeLower) ∅ (Sensors s))
               (foldl (addBlower mapUnicodeLower) ∅ (Blowers s)))
            (add64 (collections c) 1) (add64 (failures c) 0)).
Proof.
  intros H. unfold doMetrics, recordMetrics.
  by rewrite H.
Qed.

Lemma doMetrics_failure (c : collector) (rt : roundTrip)
    (s : option stokerResponse) (e : Errors.error) :
  getStatus c rt = (s, Some e) ->
  cycle c rt =
    Done (with_counters
            (with_logger c
               (Zap.Logger_Error (logger c) "failed to record metrics"
                  [Zap.Error
                     (Errors.withMessage e "failed to get stoker status"
                        [])]))
            (add64 (collections c) 1) (add64 (failures c) 1)).
Proof.
  intros H. unfold doMetrics, recordMetrics.
  by rewrite H.
Qed.

(** An identifier that no entry of the payload carries is not a key of the
    map built from the payload. *)
Lemma foldl_addSensor_absent (l : list sensor) (m : gmap string sensor)
    (k : string) :
  m !! k = None ->
  k ∉ sensor_ID <$> l ->
  foldl (addSensor mapUnicodeLower) m l !! k = None.
Proof.
  revert m. induction l as [|v l IH]; intros m Hm Hk; [done|].
  simpl. rewrite fmap_cons in Hk. apply not_elem_of_cons in Hk as [Hne Hk].
  apply IH; [|done]. unfold addSensor.
  destruct (sensor_ID v =? "")%string; [done|].
  simpl. by rewrite lookup_insert_ne.
Qed.

Lemma foldl_addBlower_absent (l : list blower) (m : gmap string blower)
    (k : string) :
  m !! k = None ->
  k ∉ blower_ID <$> l ->
  foldl (addBlower mapUnicodeLower) m l !! k = None.
Proof.
  revert m. induction l as [|v l IH]; intros m Hm Hk; [done|].
  simpl. rewrite fmap_cons in Hk. apply not_elem_of_cons in Hk as [Hne Hk].
  apply IH; [|done]. unfold addBlower.
  destruct (blower_ID v =? "")%string; [done|].
  simpl. by rewrite lookup_insert_ne.
Qed.

(** A cycle that returns leaves both counters in the range of int64. *)
Lemma doMetrics_int64 (c c' : collector) (rt : roundTrip) :
  cycle c rt = Done c' ->
  isInt64 (collections c') /\ isInt64 (failures c').
Proof.
  unfold doMetrics.
  destruct (record c rt) as [[c1 [e|]]|r]; simpl; try discriminate;
    intros [= <-]; simpl; split; apply add64_range.
Qed.

(** [loop] over round trips none of which is answered with a status other
    than 200: it returns, and has counted every one of them. *)
Lemma loop_collections (rts : list roundTrip) (c : collector) :
  Forall (fun rt => forall status body,
            rt = Responded status body -> status = 200) rts ->
  isInt64 (collections c) ->
  exists c',
    loop json_Unmarshal mapUnicodeLower c rts = Done c' /\
    collections c' = wrap64 (collections c + Z.of_nat (length rts)).
Proof.
  intros Hall. revert c.
  induction Hall as [|rt rts Hrt Hall IH]; intros c Hc.
  - exists c. split; [done|]. simpl. rewrite Z.add_0_r.
    symmetry. by apply wrap64_id.
  - assert (Hstep : exists c1, cycle c rt = Done c1 /\
                               collections c1 = add64 (collections c) 1).
    { destruct (getStokerStatus_cases c rt)
        as [(status & body & -> & Hne) | [[s Hs] | [e He]]].
      - by specialize (Hrt status body eq_refl).
      - eexists. split; [by apply doMetrics_success|done].
      - eexists. split; [by apply (doMetrics_failure c rt None e)|done]. }
    destruct Hstep as (c1 & Hrun & Hc1).
    destruct (IH c1) as (c' & Hloop & Hc').
    { rewrite Hc1. apply add64_range. }
    exists c'. simpl. rewrite Hrun. simpl. split; [done|].
    rewrite Hc', Hc1. unfold add64. rewrite wrap64_add_l. f_equal. lia.
Qed.

(** C1. On a response with a status other than 200 the collection cycle
    does not report a failure: [getStokerStatus] returns the nil response
    with the nil error, [recordMetrics] dereferences the nil response, and
    the cycle ends in a panic, with no counter touched. *)
Theorem C1_non200_status_panics (c : collector) (status : Z)
    (body : string * option Errors.error) :
  status <> 200 ->
  getStokerStatus json_Unmarshal c (Responded status body) = (None, None) /\
  panics (recordMetrics json_Unmarshal mapUnicodeLower c
            (Responded status body)) = true /\
  panics (doMetrics json_Unmarshal mapUnicodeLower c
            (Responded status body)) = true.
Proof.
  intros H. split; [by apply getStokerStatus_non200|].
  split.
  - by rewrite recordMetrics_non200.
  - by rewrite doMetrics_non200.
Qed.

(** C8. A cycle whose fetch is answered with a status other than 200
    panics.  Every other cycle returns with the attempt counter one up, in
    int64 arithmetic: after a successful fetch both maps are the ones built
    from the payload alone and the failure counter is as it was; after a
    failed fetch, the empty sensor list included, both maps are as they were
    and the failure counter is one up. *)
Theorem C8_polling_cycle (c : collector) (rt : roundTrip) :
  isInt64 (failures c) ->
  (forall status body,
     rt = Responded status body -> status <> 200 ->
     doMetrics json_Unmarshal mapUnicodeLower c rt =
       Panic
         "runtime error: invalid memory address or nil pointer dereference")
  /\
  (forall s,
     getStokerStatus json_Unmarshal c rt = (Some s, None) ->
     exists c',
       doMetrics json_Unmarshal mapUnicodeLower c rt = Done c' /\
       collections c' = add64 (collections c) 1 /\
       failures c' = failures c /\
       sensors c' = foldl (addSensor mapUnicodeLower) ∅ (Sensors s) /\
       blowers c' = foldl (addBlower mapUnicodeLower) ∅ (Blowers s) /\
       (forall k, k ∉ sensor_ID <$> Sensors s -> sensors c' !! k = None) /\
       (forall k, k ∉ blower_ID <$> Blowers s -> blowers c' !! k = None))
  /\
  (forall s e,
     getStokerStatus json_Unmarshal c rt = (s, Some e) ->
     exists c',
       doMetrics json_Unmarshal mapUnicodeLower c rt = Done c' /\
       collections c' = add64 (collections c) 1 /\
       failures c' = add64 (failures c) 1 /\
       sensors c' = sensors c /\
       blowers c' = blowers c)
  /\
  (forall data s,
     rt = Responded 200 (data, None) ->
     json_Unmarshal data = (s, None) ->
     Sensors s = [] ->
     getStokerStatus json_Unmarshal c rt =
       (None, Some (Errors.New "no sensors found")))
  /\
  ((exists status body, rt = Responded status body /\ status <> 200) \/
   (exists s, getStokerStatus json_Unmarshal c rt = (Some s, None)) \/
   (exists e, getStokerStatus json_Unmarshal c rt = (None, Some e))).
Proof.
  intros Hf. split; [|split; [|split; [|split]]].
  - intros status body -> Hs. by apply doMetrics_non200.
  - intros s Hs. eexists. split; [by apply doMetrics_success|].
    simpl. split; [done|].
    split; [unfold add64; rewrite Z.add_0_r; by apply wrap64_id|].
    split; [done|]. split; [done|]. split.
    + intros k Hk. by apply foldl_addSensor_absent.
    + intros k Hk. by apply foldl_addBlower_absent.
  - intros s e Hs. eexists. split; [by apply (doMetrics_failure c rt s e)|].
    done.
  - intros data s -> Hj Hs. by apply (getStokerStatus_no_sensors c data s).
  - apply getStokerStatus_cases.
Qed.

(** ** Names *)

Lemma cleanName_filter (s : string) :
  clean s =
    string_filter nameChar
      (strings_ToLower mapUnicodeLower (strings_Replace s " " "_")).
Proof.
  unfold cleanName, regexp_ReplaceAllString. rewrite replaceRuns_empty.
  apply string_filter_ext. intros ch. unfold nameLabelClass.
  apply negb_involutive.
Qed.

Lemma cleanName_nameChar (s : string) :
  string_forallb nameChar (clean s) = true.
Proof. rewrite cleanName_filter. apply string_filter_forallb. Qed.

(** Byte by byte: where the only white space is the space, replacing
    spaces and then lowering is lowering and then replacing white space. *)
Lemma lower_replace_byte (ch : ascii) :
  negb (isWhitespace ch) || Ascii.eqb ch " " = true ->
  lowerByte (if Ascii.eqb ch " " then "_"%char else ch) =
    (if isWhitespace (lowerByte ch) then "_"%char else lowerByte ch).
Proof.
  destruct ch as [[] [] [] [] [] [] [] []]; vm_compute;
    first [reflexivity | discriminate].
Qed.

Lemma cleanName_sanitizeSpec (s : string) :
  string_forallb isASCII s = true ->
  string_forallb (fun ch => negb (isWhitespace ch) || Ascii.eqb ch " ") s
    = true ->
  clean s = sanitizeSpec s.
Proof.
  intros Hascii Hws. rewrite cleanName_filter. unfold strings_ToLower.
  rewrite (strings_Replace_isASCII s Hascii). unfold sanitizeSpec. f_equal.
  clear Hascii. induction s as [|ch rest IH]; simpl; [done|].
  simpl in Hws. apply andb_true_iff in Hws as [Hch Hrest].
  by rewrite (lower_replace_byte ch Hch), (IH Hrest).
Qed.

Lemma foldl_addSensor_names (l : list sensor) (m : gmap string sensor) :
  (forall k v, m !! k = Some v ->
     string_forallb nameChar (sensor_Name v) = true) ->
  forall k v, foldl (addSensor mapUnicodeLower) m l !! k = Some v ->
    string_forallb nameChar (sensor_Name v) = true.
Proof.
  revert m. induction l as [|x l IH]; intros m Hm; [exact Hm|].
  simpl. apply IH. intros k v. unfold addSensor.
  destruct (sensor_ID x =? "")%string; [apply Hm|].
  simpl. rewrite lookup_insert. case_decide.
  - intros [= <-]. simpl. apply cleanName_nameChar.
  - apply Hm.
Qed.

Lemma foldl_addBlower_names (l : list blower) (m : gmap string blower) :
  (forall k v, m !! k = Some v ->
     string_forallb nameChar (blower_Name v) = true) ->
  forall k v, foldl (addBlower mapUnicodeLower) m l !! k = Some v ->
    string_forallb nameChar (blower_Name v) = true.
Proof.
  revert m. induction l as [|x l IH]; intros m Hm; [exact Hm|].
  simpl. apply IH. intros k v. unfold addBlower.
  destruct (blower_ID x =? "")%string; [apply Hm|].
  simpl. rewrite lookup_insert. case_decide.
  - intros [= <-]. simpl. apply cleanName_nameChar.
  - apply Hm.
Qed.

Lemma recordMetrics_done (c c' : collector) (rt : roundTrip) :
  record c rt = Done (c', None) ->
  exists s,
    getStatus c rt = (Some s, None) /\
    c' = with_maps c (foldl (addSensor mapUnicodeLower) ∅ (Sensors s))
           (foldl (addBlower mapUnicodeLower) ∅ (Blowers s)).
Proof.
  unfold recordMetrics.
  destruct (getStatus c rt) as [[s|] [e|]]; simpl; try discriminate.
  intros [= <-]. by exists s.
Qed.

(** C9. [cleanName] keeps, of the string with every space turned
    into an underscore and then lowercased, the characters [a-z0-9_], so
    its result has no other character; on ASCII input whose only white
    space is the space it is the sanitization of the specification; and the
    names in the maps that a successful [recordMetrics] stores have only
    characters [a-z0-9_]. *)
Theorem C9_cleanName_charset :
  (forall s,
     string_forallb nameChar (cleanName mapUnicodeLower s) = true /\
     cleanName mapUnicodeLower s =
       string_filter nameChar
         (strings_ToLower mapUnicodeLower (strings_Replace s " " "_")) /\
     (string_forallb isASCII s = true ->
      string_forallb (fun ch => negb (isWhitespace ch) || Ascii.eqb ch " ") s
        = true ->
      cleanName mapUnicodeLower s = sanitizeSpec s)) /\
  (forall c rt c',
     recordMetrics json_Unmarshal mapUnicodeLower c rt = Done (c', None) ->
     (forall k v, sensors c' !! k = Some v ->
        string_forallb nameChar (sensor_Name v) = true) /\
     (forall k v, blowers c' !! k = Some v ->
        string_forallb nameChar (blower_Name v) = true)).
Proof.
  split.
  - intros s. split; [apply cleanName_nameChar|].
    split; [apply cleanName_filter|apply cleanName_sanitizeSpec].
  - intros c rt c' Hrun.
    destruct (recordMetrics_done c c' rt Hrun) as (s & _ & ->). simpl. split.
    + apply foldl_addSensor_names. intros k v Hl.
      by rewrite lookup_empty in Hl.
    + apply foldl_addBlower_names. intros k v Hl.
      by rewrite lookup_empty in Hl.
Qed.

End JsonFacts.

Example json0_new :
  Json.newCollector "http://192.168.1.103:80/stoker.json" None ([], None)
    = (Some Sample.json0, None).
Proof. reflexivity. Qed.

(** The names of the README's output. *)
Example cleanName_samples :
  Json.cleanName Sample.mapUnicodeLower "Big Green Egg" = "big_green_egg" /\
  Json.cleanName Sample.mapUnicodeLower "4 Food Sensor" = "4_food_sensor" /\
  Json.cleanName Sample.mapUnicodeLower "Pit Sensor #1!" = "pit_sensor_1".
Proof. repeat split. Qed.

Lemma C1_non200_status_panics_witness :
  404 <> 200 /\
  Json.getStokerStatus Sample.json_Unmarshal Sample.json0
    (Json.Responded 404 ("Not Found", None)) = (None, None) /\
  Go.panics (Json.recordMetrics Sample.json_Unmarshal Sample.mapUnicodeLower
               Sample.json0 (Json.Responded 404 ("Not Found", None))) = true /\
  Go.panics (Json.doMetrics Sample.json_Unmarshal Sample.mapUnicodeLower
               Sample.json0 (Json.Responded 404 ("Not Found", None))) = true.
Proof.
  assert (H : 404 <> 200) by discriminate.
  split; [exact H|].
  exact (C1_non200_status_panics Sample.json_Unmarshal Sample.mapUnicodeLower
           Sample.json0 404 ("Not Found", None) H).
Defined.

Lemma C8_polling_cycle_witness :
  Go.isInt64 (Json.failures Sample.json0) /\
  Json.doMetrics Sample.json_Unmarshal Sample.mapUnicodeLower Sample.json0
    (Json.Responded 503 ("", None)) =
    Go.Panic
      "runtime error: invalid memory address or nil pointer dereference" /\
  exists c',
    Json.doMetrics Sample.json_Unmarshal Sample.mapUnicodeLower Sample.json0
      (Json.Responded 200 (Sample.noSensorsJson, None)) = Go.Done c' /\
    Json.collections c' = 1 /\
    Json.failures c' = 1 /\
    Json.sensors c' = Json.sensors Sample.json0 /\
    Json.blowers c' = Json.blowers Sample.json0.
Proof.
  assert (H : Go.isInt64 (Json.failures Sample.json0)).
  { vm_compute. split; discriminate. }
  split; [exact H|]. split.
  - destruct (C8_polling_cycle Sample.json_Unmarshal Sample.mapUnicodeLower
                Sample.json0 (Json.Responded 503 ("", None)) H)
      as (Hpanic & _).
    apply (Hpanic 503 ("", None)); [reflexivity|discriminate].
  - destruct (C8_polling_cycle Sample.json_Unmarshal Sample.mapUnicodeLower
                Sample.json0
                (Json.Responded 200 (Sample.noSensorsJson, None)) H)
      as (_ & _ & Hfail & Hempty & _).
    destruct (Hfail None (Errors.New "no sensors found")) as (c' & Hrun & Hrest).
    { apply (Hempty Sample.noSensorsJson Sample.noSensors); reflexivity. }
    exists c'. split; [exact Hrun|]. exact Hrest.
Defined.

Lemma C9_cleanName_charset_witness :
  (Go.string_forallb Go.isASCII "Big Green Egg" = true /\
   Go.string_forallb
     (fun ch => negb (Json.isWhitespace ch) || Ascii.eqb ch " ")
     "Big Green Egg" = true /\
   Json.recordMetrics Sample.json_Unmarshal Sample.mapUnicodeLower
     Sample.json0 (Json.Responded 200 (Sample.onePitJson, None))
     = Go.Done
         (Json.with_maps Sample.json0
            (foldl (Json.addSensor Sample.mapUnicodeLower) ∅
               [Sample.pitSensor])
            (foldl (Json.addBlower Sample.mapUnicodeLower) ∅
               [Sample.eggBlower]),
          None)) /\
  Json.cleanName Sample.mapUnicodeLower "Big Green Egg" = "big_green_egg" /\
  forall k v,
    foldl (Json.addSensor Sample.mapUnicodeLower) ∅ [Sample.pitSensor] !! k
      = Some v ->
    Go.string_forallb Json.nameChar (Json.sensor_Name v) = true.
Proof.
  assert (Ha : Go.string_forallb Go.isASCII "Big Green Egg" = true)
    by reflexivity.
  assert (Hw : Go.string_forallb
                 (fun ch => negb (Json.isWhitespace ch) || Ascii.eqb ch " ")
                 "Big Green Egg" = true) by reflexivity.
  assert (Hr : Json.recordMetrics Sample.json_Unmarshal
                 Sample.mapUnicodeLower Sample.json0
                 (Json.Responded 200 (Sample.onePitJson, None))
               = Go.Done
                   (Json.with_maps Sample.json0
                      (foldl (Json.addSensor Sample.mapUnicodeLower) ∅
                         [Sample.pitSensor])
                      (foldl (Json.addBlower Sample.mapUnicodeLower) ∅
                         [Sample.eggBlower]),
                    None)) by reflexivity.
  split; [done|].
  destruct (C9_cleanName_charset Sample.json_Unmarshal Sample.mapUnicodeLower)
    as (Hname & Hstored).
  split.
  - destruct (Hname "Big Green Egg") as (_ & _ & Hspec).
    rewrite (Hspec Ha Hw). reflexivity.
  - destruct (Hstored _ _ _ Hr) as (Hs & _). exact Hs.
Defined.

(** C9, in the words of the specification, fails on a tab: the rule of the
    specification turns it into an underscore, [cleanName] drops it. *)
Lemma C9_cleanName_counterexample :
  Json.cleanName Sample.mapUnicodeLower Sample.tabbedName = "ab" /\
  Json.sanitizeSpec Sample.tabbedName = "a_b" /\
  Json.cleanName Sample.mapUnicodeLower Sample.tabbedName
    <> Json.sanitizeSpec Sample.tabbedName.
Proof. repeat split; vm_compute; congruence. Qed.

(* ===================================================================== *)
(** * Export reads the collector and writes only its log                  *)
(* ===================================================================== *)

Section ExportFacts.

Variable NewConstMetric :
  Prometheus.Desc -> Prometheus.ValueType -> Go.float64 -> list string ->
  Prometheus.Metric * option Errors.error.

Lemma telnet_with_logger_id (c : Telnet.collector) :
  Telnet.with_logger c (Telnet.logger c) = c.
Proof. by destruct c. Qed.

Lemma json_with_logger_id (c : Json.collector) :
  Json.with_logger c (Json.logger c) = c.
Proof. by destruct c. Qed.

(** A loop whose every turn changes at most the log changes at most the
    log. *)
Lemma telnet_foldl_frame {A : Type}
    (f : Telnet.collector * list Prometheus.Metric -> A ->
         Telnet.collector * list Prometheus.Metric)
    (xs : list A) :
  (forall st a, exists l, (f st a).1 = Telnet.with_logger st.1 l) ->
  forall st, exists l, (foldl f st xs).1 = Telnet.with_logger st.1 l.
Proof.
  intros Hf. induction xs as [|x xs IH]; intros st; simpl.
  - exists (Telnet.logger st.1). by rewrite telnet_with_logger_id.
  - destruct (IH (f st x)) as [l Hl]. destruct (Hf st x) as [l' Hl'].
    exists l. rewrite Hl, Hl'. reflexivity.
Qed.

Lemma json_foldl_frame {A : Type}
    (f : Json.collector * list Prometheus.Metric -> A ->
         Json.collector * list Prometheus.Metric)
    (xs : list A) :
  (forall st a, exists l, (f st a).1 = Json.with_logger st.1 l) ->
  forall st, exists l, (foldl f st xs).1 = Json.with_logger st.1 l.
Proof.
  intros Hf. induction xs as [|x xs IH]; intros st; simpl.
  - exists (Json.logger st.1). by rewrite json_with_logger_id.
  - destruct (IH (f st x)) as [l Hl]. destruct (Hf st x) as [l' Hl'].
    exists l. rewrite Hl, Hl'. reflexivity.
Qed.

Lemma collectError_frame (st : Telnet.collector * list Prometheus.Metric)
    (kv : string * Z) :
  exists l,
    (Telnet.collectError NewConstMetric st kv).1 = Telnet.with_logger st.1 l.
Proof.
  destruct st as [c ch], kv as [k v]. unfold Telnet.collectError.
  destruct (NewConstMetric _ _ _ _) as [m [e|]]; simpl.
  - by eexists.
  - exists (Telnet.logger c). by rewrite telnet_with_logger_id.
Qed.

Lemma collectProbe_frame (st : Telnet.collector * list Prometheus.Metric)
    (kv : string * Telnet.probe) :
  exists l,
    (Telnet.collectProbe NewConstMetric st kv).1 = Telnet.with_logger st.1 l.
Proof.
  destruct st as [c ch]. unfold Telnet.collectProbe.
  destruct (NewConstMetric (Telnet.probeMetrics c) _ _ _) as [m [e|]];
    destruct (NewConstMetric (Telnet.collectionMetrics _) _ _ _)
      as [m' [e'|]]; simpl; try by eexists.
  exists (Telnet.logger c). by rewrite telnet_with_logger_id.
Qed.

Lemma Collect_frame (c : Telnet.collector) (ch : list Prometheus.Metric) :
  exists l, (Telnet.Collect NewConstMetric c ch).1 = Telnet.with_logger c l.
Proof.
  unfold Telnet.Collect.
  destruct (telnet_foldl_frame (Telnet.collectError NewConstMetric)
              (map_to_list (Telnet.collectErrors c)) collectError_frame
              (c, ch)) as [l1 H1].
  destruct (telnet_foldl_frame (Telnet.collectProbe NewConstMetric)
              (map_to_list (Telnet.probes c)) collectProbe_frame
              (foldl (Telnet.collectError NewConstMetric) (c, ch)
                 (map_to_list (Telnet.collectErrors c)))) as [l2 H2].
  exists l2. rewrite H2, H1. reflexivity.
Qed.

Lemma appendOrLog_frame (st : Json.collector * list Prometheus.Metric)
    (r : Prometheus.Metric * option Errors.error) (which : string) :
  exists l, (Json.appendOrLog st r which).1 = Json.with_logger st.1 l.
Proof.
  destruct st as [c ms], r as [m [e|]]; simpl.
  - by eexists.
  - exists (Json.logger c). by rewrite json_with_logger_id.
Qed.

Lemma json_frame_trans (c c1 c2 : Json.collector) :
  (exists l, c1 = Json.with_logger c l) ->
  (exists l, c2 = Json.with_logger c1 l) ->
  exists l, c2 = Json.with_logger c l.
Proof. intros [l1 ->] [l2 ->]. by exists l2. Qed.

Lemma createMetrics_frame (c : Json.collector) :
  exists l, (Json.createMetrics NewConstMetric c).1 = Json.with_logger c l.
Proof.
  unfold Json.createMetrics. cbv zeta.
  eapply json_frame_trans;
    [|apply (json_foldl_frame (Json.blowerMetric NewConstMetric));
      intros st kv; unfold Json.blowerMetric; apply appendOrLog_frame].
  eapply json_frame_trans;
    [|apply (json_foldl_frame (Json.sensorMetric NewConstMetric));
      intros st kv; unfold Json.sensorMetric; apply appendOrLog_frame].
  eapply json_frame_trans; [|apply appendOrLog_frame].
  apply (appendOrLog_frame (c, [])).
Qed.

(** C10. An export leaves the collector as it was, the log apart: after the
    telnet [Collect] the probes, with their collection counts, and the
    failure counts are the same maps; after [createMetrics], and so after
    the JSON [Collect], the sensor and blower maps and both counters are the
    same; this for every behaviour of [NewConstMetric], failures included,
    and a metric whose construction fails is not sent. *)
Theorem C10_export_reads_only :
  (forall (c : Telnet.collector) (ch : list Prometheus.Metric),
     let c' := (Telnet.Collect NewConstMetric c ch).1 in
     Telnet.probes c' = Telnet.probes c /\
     Telnet.collectErrors c' = Telnet.collectErrors c /\
     c' = Telnet.with_logger c (Telnet.logger c')) /\
  (forall (c : Json.collector),
     let c' := (Json.createMetrics NewConstMetric c).1 in
     Json.sensors c' = Json.sensors c /\
     Json.blowers c' = Json.blowers c /\
     Json.collections c' = Json.collections c /\
     Json.failures c' = Json.failures c /\
     c' = Json.with_logger c (Json.logger c')) /\
  (forall (c : Json.collector) (ch : list Prometheus.Metric),
     (Json.Collect NewConstMetric c ch).1
       = (Json.createMetrics NewConstMetric c).1) /\
  (forall (st : Json.collector * list Prometheus.Metric) m e which,
     (Json.appendOrLog st (m, Some e) which).2 = st.2) /\
  (forall (c : Telnet.collector) ch k v m e,
     NewConstMetric (Telnet.collectErrorMetrics c) Prometheus.CounterValue
       (Go.float64_of_int64 v) [k] = (m, Some e) ->
     (Telnet.collectError NewConstMetric (c, ch) (k, v)).2 = ch).
Proof.
  split; [|split; [|split; [|split]]].
  - intros c ch c'. destruct (Collect_frame c ch) as [l Hl].
    subst c'. rewrite Hl. done.
  - intros c c'. destruct (createMetrics_frame c) as [l Hl].
    subst c'. rewrite Hl. done.
  - intros c ch. unfold Json.Collect.
    by destruct (Json.createMetrics NewConstMetric c).
  - intros [c ms] m e which. reflexivity.
  - intros c ch k v m e H. unfold Telnet.collectError. by rewrite H.
Qed.

End ExportFacts.

Lemma C10_export_reads_only_witness :
  let c := Telnet.addError "dial" Sample.telnet0 in
  (exists m e,
     Sample.rejectAll (Telnet.collectErrorMetrics c) Prometheus.CounterValue
       (Go.float64_of_int64 1) ["dial"] = (m, Some e)) /\
  (Telnet.collectError Sample.rejectAll (c, []) ("dial", 1)).2 = [] /\
  Telnet.probes (Telnet.Collect Sample.rejectAll c []).1 = Telnet.probes c /\
  Telnet.collectErrors (Telnet.Collect Sample.rejectAll c []).1
    = Telnet.collectErrors c /\
  Json.failures (Json.createMetrics Sample.NewConstMetric Sample.json0).1
    = Json.failures Sample.json0.
Proof.
  intros c.
  assert (H : exists m e,
            Sample.rejectAll (Telnet.collectErrorMetrics c)
              Prometheus.CounterValue (Go.float64_of_int64 1) ["dial"]
            = (m, Some e)) by (by eexists _, _).
  split; [exact H|].
  destruct (C10_export_reads_only Sample.rejectAll)
    as (Htelnet & _ & _ & _ & Hskip).
  destruct (C10_export_reads_only Sample.NewConstMetric)
    as (_ & Hjson & _).
  destruct H as (m & e & H).
  split; [exact (Hskip c [] "dial" 1 m e H)|].
  destruct (Htelnet c []) as (Hp & He & _).
  split; [exact Hp|]. split; [exact He|].
  destruct (Hjson Sample.json0) as (_ & _ & _ & Hf & _). exact Hf.
Defined.

(* ===================================================================== *)
(** * Tokens and identifiers                                              *)
(* ===================================================================== *)

Section TokenFacts.
Import Go.

Lemma append_cons (ch : ascii) (a b : string) :
  String ch a +:+ b = String ch (a +:+ b).
Proof. reflexivity. Qed.

Lemma string_length_app (a b : string) :
  String.length (a +:+ b) = (String.length a + String.length b)%nat.
Proof. induction a as [|ch a IH]; simpl; [done|]. by rewrite IH. Qed.

Lemma substring_full (b : string) :
  substring 0 (String.length b) b = b.
Proof. induction b as [|ch b IH]; simpl; [done|]. by rewrite IH. Qed.

Lemma substring_split (s : string) (k : nat) :
  (k <= String.length s)%nat ->
  substring 0 k s +:+ substring k (String.length s - k) s = s.
Proof.
  revert k. induction s as [|ch s IH]; intros k Hk.
  - by destruct k.
  - destruct k as [|k].
    + rewrite Nat.sub_0_r, substring_full. reflexivity.
    + simpl. rewrite append_cons. f_equal. apply IH. simpl in Hk. lia.
Qed.

Lemma substring_app_l (a b : string) :
  substring 0 (String.length a) (a +:+ b) = a.
Proof.
  induction a as [|ch a IH]; simpl; [by destruct b|]. by rewrite IH.
Qed.

Lemma substring_app_r (a b : string) :
  substring (String.length a) (String.length b) (a +:+ b) = b.
Proof.
  induction a as [|ch a IH]; simpl; [apply substring_full|done].
Qed.

(** X1. The pieces of [strings.Split], joined with the separator, are the
    string that was split, and no piece contains the separator. *)
Theorem X1_Split_join (s : string) (sep : ascii) :
  String.concat (String sep EmptyString) (strings_Split s sep) = s /\
  Forall (fun w =>
            string_forallb (fun ch => negb (Ascii.eqb ch sep)) w = true)
         (strings_Split s sep).
Proof.
  induction s as [|ch rest [IHj IHf]]; simpl.
  - split; [done|]. by constructor.
  - destruct (Ascii.eqb ch sep) eqn:E.
    + apply Ascii.eqb_eq in E as ->.
      destruct (strings_Split_cons rest sep) as (w & ws & Hs).
      rewrite Hs in *. split.
      * simpl. simpl in IHj. by rewrite IHj.
      * by constructor.
    + destruct (strings_Split_cons rest sep) as (w & ws & Hs).
      rewrite Hs in *. split.
      * rewrite <- IHj. by destruct ws.
      * inversion IHf as [|? ? Hw Hws]; subst. constructor; [|done].
        simpl. by rewrite E, Hw.
Qed.

(** X2. A string with the suffix is its [TrimSuffix] followed by the
    suffix, and trimming the suffix off [s] followed by the suffix gives
    [s] back: the identifier of an entity followed by ':' is the first
    token of its record. *)
Theorem X2_TrimSuffix_round_trip (s suffix : string) :
  (strings_HasSuffix s suffix = true ->
   strings_TrimSuffix s suffix +:+ suffix = s) /\
  strings_HasSuffix (s +:+ suffix) suffix = true /\
  strings_TrimSuffix (s +:+ suffix) suffix = s.
Proof.
  assert (Hhas : strings_HasSuffix (s +:+ suffix) suffix = true).
  { unfold strings_HasSuffix. rewrite string_length_app.
    apply andb_true_iff. split; [apply Nat.leb_le; lia|].
    replace (String.length s + String.length suffix - String.length suffix)%nat
      with (String.length s) by lia.
    rewrite substring_app_r. apply String.eqb_refl. }
  split; [|split; [exact Hhas|]].
  - intros H. unfold strings_TrimSuffix. rewrite H.
    unfold strings_HasSuffix in H. apply andb_true_iff in H as [Hle Heq].
    apply Nat.leb_le in Hle. apply String.eqb_eq in Heq.
    pose proof (substring_split s (String.length s - String.length suffix)
                  ltac:(lia)) as Hsplit.
    replace (String.length s - (String.length s - String.length suffix))%nat
      with (String.length suffix) in Hsplit by lia.
    by rewrite Heq in Hsplit.
  - unfold strings_TrimSuffix. rewrite Hhas, string_length_app.
    replace (String.length s + String.length suffix - String.length suffix)%nat
      with (String.length s) by lia.
    apply substring_app_l.
Qed.

End TokenFacts.

Lemma X2_TrimSuffix_round_trip_witness :
  Go.strings_HasSuffix "2B0000110A442730:" ":" = true /\
  Go.strings_TrimSuffix "2B0000110A442730:" ":" +:+ ":"
    = "2B0000110A442730:".
Proof.
  assert (H : Go.strings_HasSuffix "2B0000110A442730:" ":" = true)
    by reflexivity.
  split; [exact H|].
  destruct (X2_TrimSuffix_round_trip "2B0000110A442730:" ":") as (Hrt & _).
  exact (Hrt H).
Defined.

(* ===================================================================== *)
(** * The telnet collector: streams, reconnects and the store             *)
(* ===================================================================== *)

Section StreamFacts.
Import Go Telnet.

Variable ParseFloat : string -> Z -> float64 * option Errors.error.

(** What [setTemp] does with a slice is decided by the slice alone. *)
Lemma setTemp_outcome (parts : list string) :
  parts <> [] ->
  (forall c, setTemp ParseFloat parts c = Done (c, None)) \/
  (exists e, forall c,
     setTemp ParseFloat parts c = Done (addError "unknownProbe" c, Some e)) \/
  (exists e, forall c,
     setTemp ParseFloat parts c = Done (addError "parseFloat" c, Some e)) \/
  (exists id kind t,
     validRecord ParseFloat parts id kind t /\
     forall c,
       setTemp ParseFloat parts c = Done (recordReading id kind t c, None)).
Proof.
  intros Hne.
  destruct parts as [|id0 rest] eqn:Eparts; [done|]. rewrite <- Eparts in *.
  assert (H0 : parts !! 0%nat = Some id0) by by rewrite Eparts.
  destruct (strings_HasSuffix id0 ":") eqn:Hsuf.
  2: { left. intros c. by eapply setTemp_not_probe. }
  destruct (Nat.lt_ge_cases (length parts) 11) as [Hlt|Hge].
  { left. intros c. by eapply setTemp_short. }
  destruct (lookup_lt_length parts 8) as [tok8 H8]; [lia|].
  destruct (decide (length parts = 11%nat)) as [H11|Hne11].
  - destruct (ParseFloat tok8 32) as [t [e|]] eqn:Hpf.
    + right; right; left. eexists. intros c.
      eapply setTemp_parse_error; eauto.
    + right; right; right. exists (strings_TrimSuffix id0 ":"), "food", t.
      assert (Hv : validRecord ParseFloat parts
                     (strings_TrimSuffix id0 ":") "food" t).
      { exists id0, tok8. repeat split; try done. by left. }
      split; [done|]. intros c. by apply setTemp_valid.
  - destruct (lookup_lt_length parts 10) as [p10 H10]; [lia|].
    destruct (decide (p10 = "PID:")) as [->|Hp].
    + destruct (ParseFloat tok8 32) as [t [e|]] eqn:Hpf.
      * right; right; left. eexists. intros c.
        eapply setTemp_parse_error; eauto. right. split; [lia|done].
      * right; right; right. exists (strings_TrimSuffix id0 ":"), "pit", t.
        assert (Hv : validRecord ParseFloat parts
                       (strings_TrimSuffix id0 ":") "pit" t).
        { exists id0, tok8. repeat split; try done. right.
          split; [lia|done]. }
        split; [done|]. intros c. by apply setTemp_valid.
    + right; left. eexists. intros c.
      eapply setTemp_unknown; eauto. lia.
Qed.

Lemma setTemp_nil (c : collector) :
  setTemp ParseFloat [] c = Panic "runtime error: index out of range".
Proof. reflexivity. Qed.

(** X3. Whether [setTemp] reports an error on a slice, and which, does not
    depend on the store it is applied to. *)
Theorem X3_setTemp_error_by_record (parts : list string)
    (c1 c1' c2 : collector) (e : option Errors.error) :
  setTemp ParseFloat parts c1 = Done (c1', e) ->
  exists c2', setTemp ParseFloat parts c2 = Done (c2', e).
Proof.
  intros Hrun.
  assert (Hne : parts <> []).
  { intros ->. by rewrite setTemp_nil in Hrun. }
  destruct (setTemp_outcome parts Hne)
    as [H | [[e' H] | [[e' H] | (id & kind & t & _ & H)]]];
    rewrite H in Hrun; injection Hrun as <- <-; rewrite H; by eexists.
Qed.

(** X4. A valid record touches the entity of its identifier and nothing
    else: every other entity, every failure count and the log are as they
    were, and the identifiers in the store are the old ones and the
    record's. *)
Theorem X4_valid_record_frame (parts : list string) (id kind : string)
    (t : float64) (c : collector) :
  validRecord ParseFloat parts id kind t ->
  exists c',
    setTemp ParseFloat parts c = Done (c', None) /\
    (forall k, k <> id -> probes c' !! k = probes c !! k) /\
    dom (probes c') = {[ id ]} ∪ dom (probes c) /\
    collectErrors c' = collectErrors c /\
    logger c' = logger c.
Proof.
  intros Hv. exists (recordReading id kind t c).
  split; [by apply setTemp_valid|]. split.
  - intros k Hk. by apply recordReading_other.
  - split; [|done]. unfold recordReading. simpl. apply dom_insert_L.
Qed.

Lemma addError_invariant (t : string) (c : collector) :
  storeInvariant c -> storeInvariant (addError t c).
Proof. done. Qed.

Lemma recordReading_invariant (id kind : string) (t : float64)
    (c : collector) :
  kind = "food" \/ kind = "pit" ->
  storeInvariant c -> storeInvariant (recordReading id kind t c).
Proof.
  intros Hkind Hinv k p. unfold recordReading. simpl.
  rewrite lookup_insert. case_decide as Hk.
  - subst k. intros [= <-].
    destruct (probes c !! id) as [old|] eqn:E; simpl; [|done].
    destruct (Hinv id old E) as (Hid & Hty & _). done.
  - apply Hinv.
Qed.

Lemma validRecord_kind (parts : list string) (id kind : string)
    (t : float64) :
  validRecord ParseFloat parts id kind t -> kind = "food" \/ kind = "pit".
Proof.
  intros (id0 & tok8 & _ & _ & _ & [[_ ->] | (_ & _ & ->)] & _);
    [by left|by right].
Qed.

Lemma setTemp_invariant (parts : list string) (c c' : collector)
    (e : option Errors.error) :
  setTemp ParseFloat parts c = Done (c', e) ->
  storeInvariant c -> storeInvariant c'.
Proof.
  intros Hrun Hinv.
  assert (Hne : parts <> []).
  { intros ->. by rewrite setTemp_nil in Hrun. }
  destruct (setTemp_outcome parts Hne)
    as [H | [[e' H] | [[e' H] | (id & kind & t & Hv & H)]]];
    rewrite H in Hrun; injection Hrun as <- <-; try done.
  apply recordReading_invariant; [|done]. by eapply validRecord_kind.
Qed.

Lemma Split_not_nil (line : string) (sep : ascii) :
  strings_Split line sep <> [].
Proof. by destruct (strings_Split_cons line sep) as (w & ws & ->). Qed.

(** [reader] returns on every finite stream, with the error of the stream
    wrapped and the read failure counted. *)
Lemma reader_returns (lines : list string) (readErr : Errors.error)
    (c : collector) :
  exists c1,
    reader ParseFloat lines readErr c =
      Done (addError "readLine" c1,
            Some (Errors.withMessage readErr "ReadLine failed" [])) /\
    (storeInvariant c -> storeInvariant c1) /\
    (forall k, k <> "unknownProbe" -> k <> "parseFloat" ->
       collectErrors c1 !! k = collectErrors c !! k) /\
    (forall id p, probes c !! id = Some p ->
       exists p', probes c1 !! id = Some p' /\ probeType p' = probeType p).
Proof.
  revert c. induction lines as [|line rest IH]; intros c.
  - exists c. simpl. split; [done|]. split; [done|]. split; [done|].
    intros id p Hp. by exists p.
  - simpl.
    destruct (setTemp_cases ParseFloat (strings_Split line " ") c
                (Split_not_nil line " ")) as (c1 & e1 & Hrun & _).
    rewrite Hrun. simpl.
    set (c2 := match e1 with
               | Some e => with_logger c1 _
               | None => c1
               end).
    assert (Hp2 : probes c2 = probes c1) by (subst c2; by destruct e1).
    assert (He2 : collectErrors c2 = collectErrors c1)
      by (subst c2; by destruct e1).
    destruct (IH c2) as (c3 & Hr & Hinv & Herr & Hkeep).
    exists c3. split; [done|]. split; [|split].
    + intros Hc. apply Hinv.
      assert (Hc1 : storeInvariant c1) by by eapply setTemp_invariant.
      intros k p. rewrite Hp2. apply Hc1.
    + intros k Hk1 Hk2. rewrite (Herr k Hk1 Hk2), He2.
      destruct (setTemp_outcome (strings_Split line " ")
                  (Split_not_nil line " "))
        as [H | [[e' H] | [[e' H] | (id & kind & t & _ & H)]]];
        rewrite H in Hrun; injection Hrun as <- <-; try done;
        by apply addError_other.
    + intros id p Hp.
      destruct (setTemp_probeType_stable ParseFloat _ _ _ _ _ _ Hrun Hp)
        as (p1 & Hp1 & Hk1).
      rewrite <- Hp2 in Hp1.
      destruct (Hkeep id p1 Hp1) as (p' & Hp' & Hk').
      exists p'. split; [done|]. congruence.
Qed.

(** X5. [reader] returns on every finite stream with the read error
    wrapped; it has added one, in int64 arithmetic, to the count of
    "readLine", and of the other counts only "unknownProbe" and
    "parseFloat" can have changed. *)
Theorem X5_reader_counts_read_failure (lines : list string)
    (readErr : Errors.error) (c : collector) :
  exists c',
    reader ParseFloat lines readErr c =
      Done (c', Some (Errors.withMessage readErr "ReadLine failed" [])) /\
    errorCount c' "readLine" = add64 (errorCount c "readLine") 1 /\
    (forall k, k <> "unknownProbe" -> k <> "parseFloat" ->
       k <> "readLine" ->
       collectErrors c' !! k = collectErrors c !! k).
Proof.
  destruct (reader_returns lines readErr c) as (c1 & Hr & _ & Herr & _).
  exists (addError "readLine" c1). split; [done|]. split.
  - rewrite addError_count. unfold errorCount. by rewrite Herr.
  - intros k H1 H2 H3. rewrite addError_other by done. by apply Herr.
Qed.

(** X6. Reading a stream and then another, without the read failure in
    between, is reading the two streams as one. *)
Theorem X6_reader_app (l1 l2 : list string) (readErr : Errors.error)
    (c : collector) :
  exists c1 e,
    reader ParseFloat l1 readErr c = Done (addError "readLine" c1, e) /\
    reader ParseFloat (l1 ++ l2) readErr c = reader ParseFloat l2 readErr c1.
Proof.
  revert c. induction l1 as [|line rest IH]; intros c.
  - exists c. eexists. split; reflexivity.
  - simpl.
    destruct (setTemp_cases ParseFloat (strings_Split line " ") c
                (Split_not_nil line " ")) as (c1 & e1 & Hrun & _).
    rewrite Hrun. simpl. apply IH.
Qed.

(** X7. The entities of the store are never dropped by [reader]: every
    identifier that was there is there when it returns. *)
Theorem X7_reader_keeps_entities (lines : list string)
    (readErr : Errors.error) (c : collector) :
  exists c' e,
    reader ParseFloat lines readErr c = Done (c', e) /\
    dom (probes c) ⊆ dom (probes c').
Proof.
  destruct (reader_returns lines readErr c) as (c1 & Hr & _ & _ & Hkeep).
  eexists _, _. split; [exact Hr|].
  intros k [p Hp]%elem_of_dom. apply elem_of_dom.
  destruct (Hkeep k p Hp) as (p' & Hp' & _). by exists p'.
Qed.

(** The goroutine of [main] returns for every finite list of dials. *)
Lemma connectLoop_returns (dials : list dial) (c : collector) :
  exists c',
    connectLoop ParseFloat dials c = Done c' /\
    (storeInvariant c -> storeInvariant c') /\
    (forall id p, probes c !! id = Some p ->
       exists p', probes c' !! id = Some p' /\ probeType p' = probeType p) /\
    (isInt64 (errorCount c "dial") ->
     errorCount c' "dial" =
       wrap64 (errorCount c "dial"
               + Z.of_nat (length (filter (fun d => isDialFailed d = true)
                                     dials)))).
Proof.
  revert c. induction dials as [|d rest IH]; intros c.
  - exists c. simpl. split; [done|]. split; [done|]. split.
    + intros id p Hp. by exists p.
    + intros Hr. rewrite Z.add_0_r. symmetry. by apply wrap64_id.
  - destruct d as [err | lines readErr]; simpl.
    + destruct (IH (addError "dial" c)) as (c' & Hrun & Hinv & Hkeep & Hn).
      exists c'. split; [done|]. split; [|split].
      * intros Hc. by apply Hinv, addError_invariant.
      * intros id p Hp. by apply Hkeep.
      * intros Hr.
        rewrite Hn by (rewrite addError_count; apply add64_range).
        rewrite addError_count. unfold add64. rewrite wrap64_add_l.
        f_equal. lia.
    + destruct (reader_returns lines readErr c)
        as (c1 & Hr & Hinv1 & Herr1 & Hkeep1).
      rewrite Hr. simpl.
      destruct (IH (addError "readLine" c1))
        as (c' & Hrun & Hinv & Hkeep & Hn).
      exists c'. split; [done|]. split; [|split].
      * intros Hc. by apply Hinv, addError_invariant, Hinv1.
      * intros id p Hp. destruct (Hkeep1 id p Hp) as (p1 & Hp1 & Hk1).
        destruct (Hkeep id p1 Hp1) as (p' & Hp' & Hk').
        exists p'. split; [done|]. congruence.
      * intros Hrange. rewrite filter_cons_False by done.
        assert (Hsame : errorCount (addError "readLine" c1) "dial"
                        = errorCount c "dial").
        { unfold errorCount. rewrite addError_other by done.
          by rewrite Herr1. }
        rewrite Hn by (by rewrite Hsame). by rewrite Hsame.
Qed.

(** X8. From the collector of [newCollector], whatever the dials and the
    lines, the goroutine of [main] does not panic, and every entity of the
    store it leaves is filed under its own identifier, is a food or a pit
    probe and has the blower "unknown". *)
Theorem X8_store_invariant (dials : list dial) (l : Zap.Logger) :
  exists c0 c',
    newCollector (l, None) = (Some c0, None) /\
    connectLoop ParseFloat dials c0 = Done c' /\
    storeInvariant c'.
Proof.
  eexists.
  destruct (connectLoop_returns dials
              (with_logger
                 {| probes := ∅;
                    probeMetrics :=
                      newFuncMetric "probe_status" "probe status"
                        ["type"; "id"; "blower"];
                    collectionMetrics :=
                      newFuncMetric "probe_collections_total"
                        "number of times data has been collected"
                        ["type"; "id"];
                    collectErrors := ∅;
                    collectErrorMetrics :=
                      newFuncMetric "collect_failures_total"
                        "number of errors while collecting metrics"
                        ["type"];
                    logger := [] |} l))
    as (c' & Hrun & Hinv & _).
  exists c'. split; [reflexivity|]. split; [exact Hrun|].
  apply Hinv. intros k p Hl. simpl in Hl. by rewrite lookup_empty in Hl.
Qed.

(** X9. Across failed dials and reconnects an entity keeps its kind, and
    the count of "dial" grows by the number of failed dials, in int64
    arithmetic. *)
Theorem X9_reconnects (dials : list dial) (c : collector) (id : string)
    (p : probe) :
  probes c !! id = Some p ->
  isInt64 (errorCount c "dial") ->
  exists c' p',
    connectLoop ParseFloat dials c = Done c' /\
    probes c' !! id = Some p' /\
    probeType p' = probeType p /\
    errorCount c' "dial" =
      wrap64 (errorCount c "dial"
              + Z.of_nat (length (filter (fun d => isDialFailed d = true)
                                    dials))).
Proof.
  intros Hp Hr.
  destruct (connectLoop_returns dials c) as (c' & Hrun & _ & Hkeep & Hn).
  destruct (Hkeep id p Hp) as (p' & Hp' & Hk).
  exists c', p'. repeat split; try done. by apply Hn.
Qed.

End StreamFacts.

(* ===================================================================== *)
(** * Export: what is sent and what is logged                             *)
(* ===================================================================== *)

Section ExportCounts.

Variable NewConstMetric :
  Prometheus.Desc -> Prometheus.ValueType -> Go.float64 -> list string ->
  Prometheus.Metric * option Errors.error.

(** Metrics sent plus entries logged, of a state of the telnet export. *)
Local Abbreviation tcount st :=
  (length (snd st) + length (Telnet.logger (fst st)))%nat.

Local Abbreviation jcount st :=
  (length (snd st) + length (Json.logger (fst st)))%nat.

Lemma collectError_count (st : Telnet.collector * list Prometheus.Metric)
    (kv : string * Z) :
  tcount (Telnet.collectError NewConstMetric st kv) = (tcount st + 1)%nat /\
  st.2 `prefix_of` (Telnet.collectError NewConstMetric st kv).2.
Proof.
  destruct st as [c ch], kv as [k v]. unfold Telnet.collectError.
  destruct (NewConstMetric _ _ _ _) as [m [e|]]; simpl.
  - unfold Zap.Logger_Error. rewrite length_app. simpl. split; [lia|done].
  - rewrite length_app. simpl. split; [lia|]. by apply prefix_app_r.
Qed.

Lemma collectProbe_count (st : Telnet.collector * list Prometheus.Metric)
    (kv : string * Telnet.probe) :
  tcount (Telnet.collectProbe NewConstMetric st kv) = (tcount st + 2)%nat /\
  st.2 `prefix_of` (Telnet.collectProbe NewConstMetric st kv).2.
Proof.
  destruct st as [c ch]. unfold Telnet.collectProbe.
  destruct (NewConstMetric (Telnet.probeMetrics c) _ _ _) as [m [e|]];
    destruct (NewConstMetric (Telnet.collectionMetrics _) _ _ _)
      as [m' [e'|]]; simpl; unfold Zap.Logger_Error;
    rewrite ?length_app; simpl; (split; [lia|]).
  - done.
  - by apply prefix_app_r.
  - by apply prefix_app_r.
  - rewrite <- (assoc_L (++)). by apply prefix_app_r.
Qed.

Lemma foldl_count {S A : Type} (count : S -> nat) (out : S -> list Prometheus.Metric)
    (f : S -> A -> S) (n : nat) (xs : list A) :
  (forall st a, count (f st a) = (count st + n)%nat /\
                out st `prefix_of` out (f st a)) ->
  forall st,
    count (foldl f st xs) = (count st + n * length xs)%nat /\
    out st `prefix_of` out (foldl f st xs).
Proof.
  intros Hf. induction xs as [|x xs IH]; intros st; simpl.
  - split; [lia|done].
  - destruct (IH (f st x)) as [Hc Hp]. destruct (Hf st x) as [Hc' Hp'].
    split; [lia|]. by etrans.
Qed.

(** X10. Every metric construction of the telnet [Collect] ends in a metric
    sent or in an entry logged: what is sent and what is logged grow
    together by one for every failure category and two for every probe, and
    what was on the channel stays in front. *)
Theorem X10_Collect_sends_or_logs (c : Telnet.collector)
    (ch : list Prometheus.Metric) :
  let r := Telnet.Collect NewConstMetric c ch in
  (length r.2 + length (Telnet.logger r.1))%nat =
    (length ch + length (Telnet.logger c)
     + size (Telnet.collectErrors c) + 2 * size (Telnet.probes c))%nat /\
  ch `prefix_of` r.2.
Proof.
  unfold Telnet.Collect.
  destruct (foldl_count (fun st => tcount st) snd
              (Telnet.collectError NewConstMetric) 1
              (map_to_list (Telnet.collectErrors c)) collectError_count
              (c, ch)) as [H1 P1].
  destruct (foldl_count (fun st => tcount st) snd
              (Telnet.collectProbe NewConstMetric) 2
              (map_to_list (Telnet.probes c)) collectProbe_count
              (foldl (Telnet.collectError NewConstMetric) (c, ch)
                 (map_to_list (Telnet.collectErrors c)))) as [H2 P2].
  rewrite !length_map_to_list in *. simpl in *. split; [lia|by etrans].
Qed.

Lemma appendOrLog_count (st : Json.collector * list Prometheus.Metric)
    (r : Prometheus.Metric * option Errors.error) (which : string) :
  jcount (Json.appendOrLog st r which) = (jcount st + 1)%nat /\
  st.2 `prefix_of` (Json.appendOrLog st r which).2.
Proof.
  destruct st as [c ms], r as [m [e|]]; simpl; unfold Zap.Logger_Error;
    rewrite length_app; simpl; (split; [lia|]); [done|by apply prefix_app_r].
Qed.

(** X11. Every metric construction of [createMetrics] ends in a metric
    returned or in an entry logged: together they are two, for the
    counters, and one for every sensor and every blower. *)
Theorem X11_createMetrics_returns_or_logs (c : Json.collector) :
  let r := Json.createMetrics NewConstMetric c in
  (length r.2 + length (Json.logger r.1))%nat =
    (length (Json.logger c) + 2
     + size (Json.sensors c) + size (Json.blowers c))%nat.
Proof.
  unfold Json.createMetrics. cbv zeta.
  set (st1 := Json.appendOrLog (c, []) _ "failureMetrics").
  set (st2 := Json.appendOrLog st1 _ "collectionMetrics").
  destruct (appendOrLog_count (c, [])
              (NewConstMetric
                 (Json.failureMetrics
                    (c, @nil Prometheus.Metric).1)
                 Prometheus.CounterValue
                 (Go.float64_of_int64
                    (Json.failures (c, @nil Prometheus.Metric).1)) [])
              "failureMetrics") as [H1 _].
  destruct (appendOrLog_count st1
              (NewConstMetric (Json.collectionMetrics st1.1)
                 Prometheus.CounterValue
                 (Go.float64_of_int64 (Json.collections st1.1)) [])
              "collectionMetrics") as [H2 _].
  destruct (foldl_count (fun st => jcount st) snd
              (Json.sensorMetric NewConstMetric) 1
              (map_to_list (Json.sensors c))
              (fun st kv => appendOrLog_count st _ "sensorMetrics") st2)
    as [H3 _].
  destruct (foldl_count (fun st => jcount st) snd
              (Json.blowerMetric NewConstMetric) 1
              (map_to_list (Json.blowers c))
              (fun st kv => appendOrLog_count st _ "blowerMetrics")
              (foldl (Json.sensorMetric NewConstMetric) st2
                 (map_to_list (Json.sensors c)))) as [H4 _].
  rewrite !length_map_to_list in *.
  subst st2 st1. cbv beta in *. rewrite H4, H3, H2, H1. simpl. lia.
Qed.

End ExportCounts.

Section ExportContents.

Variable NewConstMetric :
  Prometheus.Desc -> Prometheus.ValueType -> Go.float64 -> list string ->
  Prometheus.Metric * option Errors.error.

(** A loop that only appends to what is sent, and keeps [P], sends what the
    turn of any of its elements sends. *)
Lemma foldl_sends {S A : Type} (out : S -> list Prometheus.Metric)
    (f : S -> A -> S) (P : S -> Prop) (xs : list A) (x : A)
    (m : Prometheus.Metric) :
  (forall st a, P st -> P (f st a) /\ out st `prefix_of` out (f st a)) ->
  (forall st, P st -> m ∈ out (f st x)) ->
  x ∈ xs ->
  forall st, P st -> m ∈ out (foldl f st xs).
Proof.
  intros Hstep Hx.
  assert (Hmono : forall ys st, P st -> out st `prefix_of` out (foldl f st ys)).
  { induction ys as [|y ys IH]; intros st Hst; simpl; [done|].
    destruct (Hstep st y Hst) as [HP Hpre]. etrans; [exact Hpre|].
    by apply IH. }
  induction xs as [|a xs IH]; intros Hin st Hst.
  - by apply elem_of_nil in Hin.
  - simpl. destruct (Hstep st a Hst) as [HP Hpre].
    apply elem_of_cons in Hin as [<-|Hin].
    + destruct (Hmono xs (f st x) HP) as [k ->].
      apply elem_of_app. left. by apply Hx.
    + by apply IH.
Qed.

Local Abbreviation tframe c st := (exists l, fst st = Telnet.with_logger c l).
Local Abbreviation jframe c st := (exists l, fst st = Json.with_logger c l).

Lemma collectError_step (c : Telnet.collector)
    (st : Telnet.collector * list Prometheus.Metric) (kv : string * Z) :
  tframe c st ->
  tframe c (Telnet.collectError NewConstMetric st kv) /\
  st.2 `prefix_of` (Telnet.collectError NewConstMetric st kv).2.
Proof.
  intros [l Hl]. split.
  - destruct (collectError_frame NewConstMetric st kv) as [l' Hl'].
    exists l'. rewrite Hl', Hl. reflexivity.
  - apply collectError_count.
Qed.

Lemma collectProbe_step (c : Telnet.collector)
    (st : Telnet.collector * list Prometheus.Metric)
    (kv : string * Telnet.probe) :
  tframe c st ->
  tframe c (Telnet.collectProbe NewConstMetric st kv) /\
  st.2 `prefix_of` (Telnet.collectProbe NewConstMetric st kv).2.
Proof.
  intros [l Hl]. split.
  - destruct (collectProbe_frame NewConstMetric st kv) as [l' Hl'].
    exists l'. rewrite Hl', Hl. reflexivity.
  - apply collectProbe_count.
Qed.

(** X12. The telnet [Collect] sends the metric of every failure category,
    and the gauge and the collection counter of every probe, whose
    construction succeeds. *)
Theorem X12_Collect_complete (c : Telnet.collector)
    (ch : list Prometheus.Metric) :
  (forall k v m,
     Telnet.collectErrors c !! k = Some v ->
     NewConstMetric (Telnet.collectErrorMetrics c) Prometheus.CounterValue
       (Go.float64_of_int64 v) [k] = (m, None) ->
     m ∈ (Telnet.Collect NewConstMetric c ch).2) /\
  (forall k p m,
     Telnet.probes c !! k = Some p ->
     NewConstMetric (Telnet.probeMetrics c) Prometheus.GaugeValue
       (Telnet.temperature p)
       [Telnet.probeType p; Telnet.id p; Telnet.blower p] = (m, None) ->
     m ∈ (Telnet.Collect NewConstMetric c ch).2) /\
  (forall k p m,
     Telnet.probes c !! k = Some p ->
     NewConstMetric (Telnet.collectionMetrics c) Prometheus.CounterValue
       (Go.float64_of_int64 (Telnet.collections p))
       [Telnet.probeType p; Telnet.id p] = (m, None) ->
     m ∈ (Telnet.Collect NewConstMetric c ch).2).
Proof.
  assert (H0 : tframe c (c, ch)).
  { exists (Telnet.logger c). simpl. by rewrite telnet_with_logger_id. }
  set (st1 := foldl (Telnet.collectError NewConstMetric) (c, ch)
                (map_to_list (Telnet.collectErrors c))).
  assert (H1 : tframe c st1).
  { subst st1. revert H0. generalize (c, ch).
    induction (map_to_list (Telnet.collectErrors c)) as [|x xs IH];
      intros st Hst; simpl; [done|].
    apply IH. by apply collectError_step. }
  assert (Hpre : forall st, tframe c st ->
            st.2 `prefix_of`
              (foldl (Telnet.collectProbe NewConstMetric) st
                 (map_to_list (Telnet.probes c))).2).
  { induction (map_to_list (Telnet.probes c)) as [|x xs IH];
      intros st Hst; simpl; [done|].
    destruct (collectProbe_step c st x Hst) as [HP Hp].
    etrans; [exact Hp|]. by apply IH. }
  unfold Telnet.Collect. fold st1. split; [|split].
  - intros k v m Hl Hm.
    destruct (Hpre st1 H1) as [rest ->]. apply elem_of_app. left.
    subst st1.
    apply (foldl_sends snd _ (fun st => tframe c st) _ (k, v) m);
      [intros st a; apply collectError_step| |by apply elem_of_map_to_list|
       done].
    intros [c' ch'] [l Hl']. simpl in Hl'. subst c'.
    unfold Telnet.collectError. simpl. rewrite Hm. simpl.
    apply elem_of_app. right. by apply list_elem_of_singleton.
  - intros k p m Hl Hm.
    apply (foldl_sends snd _ (fun st => tframe c st) _ (k, p) m);
      [intros st a; apply collectProbe_step| |by apply elem_of_map_to_list|
       done].
    intros [c' ch'] [l Hl']. simpl in Hl'. subst c'.
    unfold Telnet.collectProbe. simpl. rewrite Hm.
    destruct (NewConstMetric _ Prometheus.CounterValue _ _) as [m' [e|]];
      simpl.
    + apply elem_of_app. right. by apply list_elem_of_singleton.
    + apply elem_of_app. left. apply elem_of_app. right.
      by apply list_elem_of_singleton.
  - intros k p m Hl Hm.
    apply (foldl_sends snd _ (fun st => tframe c st) _ (k, p) m);
      [intros st a; apply collectProbe_step| |by apply elem_of_map_to_list|
       done].
    intros [c' ch'] [l Hl']. simpl in Hl'. subst c'.
    unfold Telnet.collectProbe. simpl.
    destruct (NewConstMetric _ Prometheus.GaugeValue _ _) as [m' [e|]];
      simpl; rewrite Hm; simpl;
      apply elem_of_app; right; by apply list_elem_of_singleton.
Qed.

End ExportContents.

Section ExportContentsJson.

Variable NewConstMetric :
  Prometheus.Desc -> Prometheus.ValueType -> Go.float64 -> list string ->
  Prometheus.Metric * option Errors.error.

Local Abbreviation jframe c st := (exists l, fst st = Json.with_logger c l).

Lemma appendOrLog_step (c : Json.collector)
    (st : Json.collector * list Prometheus.Metric)
    (r : Prometheus.Metric * option Errors.error) (which : string) :
  jframe c st ->
  jframe c (Json.appendOrLog st r which) /\
  st.2 `prefix_of` (Json.appendOrLog st r which).2.
Proof.
  intros [l Hl]. split.
  - destruct (appendOrLog_frame st r which) as [l' Hl'].
    exists l'. rewrite Hl', Hl. reflexivity.
  - apply appendOrLog_count.
Qed.

Lemma json_foldl_prefix {A : Type} (c : Json.collector)
    (f : Json.collector * list Prometheus.Metric -> A ->
         Json.collector * list Prometheus.Metric)
    (xs : list A) :
  (forall st a, jframe c st ->
     jframe c (f st a) /\ st.2 `prefix_of` (f st a).2) ->
  forall st, jframe c st ->
    jframe c (foldl f st xs) /\ st.2 `prefix_of` (foldl f st xs).2.
Proof.
  intros Hf. induction xs as [|x xs IH]; intros st Hst; simpl; [done|].
  destruct (Hf st x Hst) as [HP Hp]. destruct (IH _ HP) as [HP' Hp'].
  split; [done|]. by etrans.
Qed.

(** X13. [createMetrics] returns the gauge of every sensor and of every
    blower whose construction succeeds; the blower label of a sensor
    without blower is the empty string. *)
Theorem X13_createMetrics_complete (c : Json.collector) :
  (forall k v m,
     Json.sensors c !! k = Some v ->
     NewConstMetric (Json.sensorMetrics c) Prometheus.GaugeValue
       (Json.sensor_Temp v)
       [Json.sensor_ID v; Json.sensor_Name v;
        default "" (Json.sensor_Blower v)] = (m, None) ->
     m ∈ (Json.createMetrics NewConstMetric c).2) /\
  (forall k v m,
     Json.blowers c !! k = Some v ->
     NewConstMetric (Json.blowerMetrics c) Prometheus.GaugeValue
       (Go.float64_of_int64 (Json.blower_On v))
       [Json.blower_ID v; Json.blower_Name v] = (m, None) ->
     m ∈ (Json.createMetrics NewConstMetric c).2).
Proof.
  unfold Json.createMetrics. cbv zeta.
  set (st2 := Json.appendOrLog (Json.appendOrLog (c, []) _ _) _ _).
  assert (H2 : jframe c st2).
  { subst st2. apply appendOrLog_step, appendOrLog_step.
    exists (Json.logger c). simpl. by rewrite json_with_logger_id. }
  assert (Hs : forall st a, jframe c st ->
            jframe c (Json.sensorMetric NewConstMetric st a) /\
            st.2 `prefix_of` (Json.sensorMetric NewConstMetric st a).2).
  { intros st a. unfold Json.sensorMetric. apply appendOrLog_step. }
  assert (Hb : forall st a, jframe c st ->
            jframe c (Json.blowerMetric NewConstMetric st a) /\
            st.2 `prefix_of` (Json.blowerMetric NewConstMetric st a).2).
  { intros st a. unfold Json.blowerMetric. apply appendOrLog_step. }
  destruct (json_foldl_prefix c _ (map_to_list (Json.sensors c)) Hs st2 H2)
    as [H3 _].
  split.
  - intros k v m Hl Hm.
    destruct (json_foldl_prefix c _ (map_to_list (Json.blowers c)) Hb _ H3)
      as [_ [rest ->]].
    apply elem_of_app. left.
    apply (foldl_sends snd _ (fun st => jframe c st) _ (k, v) m);
      [exact Hs| |by apply elem_of_map_to_list|done].
    intros [c' ms] [l Hl']. simpl in Hl'. subst c'.
    unfold Json.sensorMetric. simpl.
    replace (match Json.sensor_Blower v with
             | Some b => b
             | None => ""
             end) with (default "" (Json.sensor_Blower v))
      by by destruct (Json.sensor_Blower v).
    rewrite Hm. simpl. apply elem_of_app. right.
    by apply list_elem_of_singleton.
  - intros k v m Hl Hm.
    apply (foldl_sends snd _ (fun st => jframe c st) _ (k, v) m);
      [exact Hb| |by apply elem_of_map_to_list|done].
    intros [c' ms] [l Hl']. simpl in Hl'. subst c'.
    unfold Json.blowerMetric. simpl. rewrite Hm. simpl.
    apply elem_of_app. right. by apply list_elem_of_singleton.
Qed.

(** A loop none of whose turns logs leaves the collector alone and sends
    its [n] metrics a turn. *)
Lemma foldl_all_sent {C A : Type}
    (f : C * list Prometheus.Metric -> A -> C * list Prometheus.Metric)
    (c : C) (n : nat) (xs : list A) :
  (forall ch a, exists sent,
     f (c, ch) a = (c, ch ++ sent) /\ length sent = n) ->
  forall ch, exists sent,
    foldl f (c, ch) xs = (c, ch ++ sent) /\
    length sent = (n * length xs)%nat.
Proof.
  intros Hf. induction xs as [|x xs IH]; intros ch; simpl.
  - exists []. split; [by rewrite app_nil_r|simpl; lia].
  - destruct (Hf ch x) as (s1 & -> & H1).
    destruct (IH (ch ++ s1)) as (s2 & -> & H2).
    exists (s1 ++ s2). rewrite (assoc_L (++)), length_app.
    split; [done|lia].
Qed.

Hypothesis label_cardinality : forall d t v labelValues,
  length labelValues = length (Prometheus.variableLabels d) ->
  (NewConstMetric d t v labelValues).2 = None.

Lemma construct_ok (d : Prometheus.Desc) (t : Prometheus.ValueType)
    (v : Go.float64) (ls : list string) :
  length ls = length (Prometheus.variableLabels d) ->
  exists m, NewConstMetric d t v ls = (m, None).
Proof.
  intros H. pose proof (label_cardinality d t v ls H) as Hn.
  destruct (NewConstMetric d t v ls) as [m o]. simpl in Hn. subst o.
  by exists m.
Qed.

(** X14. The label values that the telnet [Collect] passes are as many as
    the labels of the descriptors of [newCollector]: if [NewConstMetric]
    accepts every call with as many values as labels, then, whatever the
    probes, the counts and the log of the collector, [Collect] logs nothing
    and sends one metric for every failure category and two for every
    probe. *)
Theorem X14_Collect_label_cardinality (ps : gmap string Telnet.probe)
    (es : gmap string Z) (lg : Zap.Logger) (ch : list Prometheus.Metric) :
  let c := Telnet.with_logger
             (Telnet.with_collectErrors
                (Telnet.with_probes Sample.telnet0 ps) es) lg in
  exists sent,
    Telnet.Collect NewConstMetric c ch = (c, ch ++ sent) /\
    length sent = (size es + 2 * size ps)%nat.
Proof.
  intros c.
  assert (L1 : length (Prometheus.variableLabels
                         (Telnet.collectErrorMetrics c)) = 1%nat)
    by reflexivity.
  assert (L2 : length (Prometheus.variableLabels (Telnet.probeMetrics c))
               = 3%nat) by reflexivity.
  assert (L3 : length (Prometheus.variableLabels
                         (Telnet.collectionMetrics c)) = 2%nat)
    by reflexivity.
  assert (Hes : Telnet.collectErrors c = es) by reflexivity.
  assert (Hps : Telnet.probes c = ps) by reflexivity.
  clearbody c. unfold Telnet.Collect.
  destruct (foldl_all_sent (Telnet.collectError NewConstMetric) c 1
              (map_to_list (Telnet.collectErrors c))) with (ch := ch)
    as (s1 & -> & H1).
  { intros ch' [k v]. unfold Telnet.collectError.
    destruct (construct_ok (Telnet.collectErrorMetrics c)
                Prometheus.CounterValue (Go.float64_of_int64 v) [k])
      as [m ->]; [by rewrite L1|].
    by exists [m]. }
  destruct (foldl_all_sent (Telnet.collectProbe NewConstMetric) c 2
              (map_to_list (Telnet.probes c))) with (ch := ch ++ s1)
    as (s2 & -> & H2).
  { intros ch' [k p]. unfold Telnet.collectProbe. simpl.
    destruct (construct_ok (Telnet.probeMetrics c) Prometheus.GaugeValue
                (Telnet.temperature p)
                [Telnet.probeType p; Telnet.id p; Telnet.blower p])
      as [m ->]; [by rewrite L2|].
    destruct (construct_ok (Telnet.collectionMetrics c)
                Prometheus.CounterValue
                (Go.float64_of_int64 (Telnet.collections p))
                [Telnet.probeType p; Telnet.id p])
      as [m' ->]; [by rewrite L3|].
    exists [m; m']. by rewrite <- (assoc_L (++)). }
  exists (s1 ++ s2). rewrite (assoc_L (++)), length_app.
  rewrite !length_map_to_list, Hes, Hps in *. split; [done|]. lia.
Qed.

(** X15. Likewise for [createMetrics] and the descriptors of the JSON
    [newCollector]: nothing is logged, and the metrics returned are the
    failure counter, the collection counter, and one gauge for every sensor
    and every blower. *)
Theorem X15_createMetrics_label_cardinality (ss : gmap string Json.sensor)
    (bs : gmap string Json.blower) (n f : Z) (lg : Zap.Logger) :
  let c := Json.with_logger
             (Json.with_counters (Json.with_maps Sample.json0 ss bs) n f)
             lg in
  exists mf mc rest,
    Json.createMetrics NewConstMetric c = (c, mf :: mc :: rest) /\
    NewConstMetric (Json.failureMetrics c) Prometheus.CounterValue
      (Go.float64_of_int64 f) [] = (mf, None) /\
    NewConstMetric (Json.collectionMetrics c) Prometheus.CounterValue
      (Go.float64_of_int64 n) [] = (mc, None) /\
    length rest = (size ss + size bs)%nat.
Proof.
  intros c.
  assert (L1 : length (Prometheus.variableLabels (Json.failureMetrics c))
               = 0%nat) by reflexivity.
  assert (L2 : length (Prometheus.variableLabels (Json.collectionMetrics c))
               = 0%nat) by reflexivity.
  assert (L3 : length (Prometheus.variableLabels (Json.sensorMetrics c))
               = 3%nat) by reflexivity.
  assert (L4 : length (Prometheus.variableLabels (Json.blowerMetrics c))
               = 2%nat) by reflexivity.
  assert (Hf : Json.failures c = f) by reflexivity.
  assert (Hn : Json.collections c = n) by reflexivity.
  assert (Hss : Json.sensors c = ss) by reflexivity.
  assert (Hbs : Json.blowers c = bs) by reflexivity.
  clearbody c. unfold Json.createMetrics. cbv zeta.
  destruct (construct_ok (Json.failureMetrics c) Prometheus.CounterValue
              (Go.float64_of_int64 f) []) as [mf Hmf]; [by rewrite L1|].
  destruct (construct_ok (Json.collectionMetrics c) Prometheus.CounterValue
              (Go.float64_of_int64 n) []) as [mc Hmc]; [by rewrite L2|].
  simpl. rewrite Hf, Hmf. simpl. rewrite Hn, Hmc. simpl.
  destruct (foldl_all_sent (Json.sensorMetric NewConstMetric) c 1
              (map_to_list (Json.sensors c))) with (ch := [mf; mc])
    as (s1 & -> & H1).
  { intros ch' [k v]. unfold Json.sensorMetric. simpl.
    destruct (construct_ok (Json.sensorMetrics c) Prometheus.GaugeValue
                (Json.sensor_Temp v)
                [Json.sensor_ID v; Json.sensor_Name v;
                 match Json.sensor_Blower v with
                 | Some b => b
                 | None => ""
                 end]) as [m ->]; [by rewrite L3|].
    by exists [m]. }
  destruct (foldl_all_sent (Json.blowerMetric NewConstMetric) c 1
              (map_to_list (Json.blowers c))) with (ch := [mf; mc] ++ s1)
    as (s2 & -> & H2).
  { intros ch' [k v]. unfold Json.blowerMetric. simpl.
    destruct (construct_ok (Json.blowerMetrics c) Prometheus.GaugeValue
                (Go.float64_of_int64 (Json.blower_On v))
                [Json.blower_ID v; Json.blower_Name v]) as [m ->];
      [by rewrite L4|].
    by exists [m]. }
  exists mf, mc, (s1 ++ s2). rewrite length_app.
  rewrite !length_map_to_list, ?Hss, ?Hbs in *.
  split; [by rewrite <- (assoc_L (++))|]. split; [done|]. split; [done|lia].
Qed.

End ExportContentsJson.

(* ===================================================================== *)
(** * The JSON collector: fetch results, stored entries, counters         *)
(* ===================================================================== *)

Section PollingFacts.
Import Go Json.

Variable json_Unmarshal : string -> stokerResponse * option Errors.error.
Variable mapUnicodeLower : string -> string.

Local Abbreviation getStatus := (getStokerStatus json_Unmarshal).
Local Abbreviation cycle := (doMetrics json_Unmarshal mapUnicodeLower).
Local Abbreviation clean := (cleanName mapUnicodeLower).

Lemma otherStatus_true (rt : roundTrip) :
  otherStatus rt = true <->
  exists status body, rt = Responded status body /\ status <> 200.
Proof.
  split.
  - destruct rt as [e|status body]; simpl; [done|].
    intros H%negb_true_iff%Z.eqb_neq. by eexists _, _.
  - intros (status & body & -> & H). simpl.
    by apply negb_true_iff, Z.eqb_neq.
Qed.

(** X16. [getStokerStatus] returns a response exactly when the status is
    200, the body is read, it decodes and has at least one sensor; it
    returns neither response nor error exactly when the status is not 200;
    it never returns both a response and an error. *)
Theorem X16_getStokerStatus_result (c : collector) (rt : roundTrip) :
  (forall s,
     getStokerStatus json_Unmarshal c rt = (Some s, None) <->
     exists data,
       rt = Responded 200 (data, None) /\
       json_Unmarshal data = (s, None) /\
       Sensors s <> []) /\
  (getStokerStatus json_Unmarshal c rt = (None, None) <->
   otherStatus rt = true) /\
  (forall s e, getStokerStatus json_Unmarshal c rt <> (Some s, Some e)).
Proof.
  assert (Hno : forall r : option stokerResponse * option Errors.error,
            (forall s, r <> (Some s, None)) ->
            (forall s data,
               rt = Responded 200 (data, None) ->
               json_Unmarshal data = (s, None) -> Sensors s = []) ->
            forall s,
              r = (Some s, None) <->
              exists data,
                rt = Responded 200 (data, None) /\
                json_Unmarshal data = (s, None) /\
                Sensors s <> []).
  { intros r Hr Hrt s. split; [by intros ?%Hr|].
    intros (data & H1 & H2 & H3). by specialize (Hrt s data H1 H2). }
  unfold getStokerStatus.
  destruct rt as [e | status [data [e|]]] eqn:Ert; simpl.
  - split; [|split]; [|done|done]. apply Hno; [done|]. intros; congruence.
  - destruct (status =? 200) eqn:E; simpl.
    + split; [|split]; [|done|done]. apply Hno; [done|]. intros; congruence.
    + split; [|split]; [|done|done]. apply Hno; [done|]. intros; congruence.
  - destruct (status =? 200) eqn:E; simpl.
    + apply Z.eqb_eq in E as ->.
      destruct (json_Unmarshal data) as [s0 [e|]] eqn:Hj.
      * split; [|split]; [|done|done]. apply Hno; [done|].
        intros; congruence.
      * destruct (Sensors s0) as [|v vs] eqn:Hs; simpl.
        -- split; [|split]; [|done|done]. apply Hno; [done|].
           intros; congruence.
        -- split; [|split]; [|done|done].
           intros s. split.
           ++ intros [= <-]. exists data. by rewrite Hs.
           ++ intros (d & [= <-] & Hd & _). congruence.
    + apply Z.eqb_neq in E. split; [|split]; [|done|done].
      apply Hno; [done|]. intros; congruence.
Qed.

Lemma foldl_addSensor_lookup (l : list sensor) (k : string) :
  foldl (addSensor mapUnicodeLower) ∅ l !! k =
    if decide (k = "") then None
    else storedSensor mapUnicodeLower
           <$> last (filter (fun v => sensor_ID v = k) l).
Proof.
  destruct (decide (k = "")) as [->|Hk].
  - induction l as [|x l IH] using rev_ind;
      [simpl; by rewrite lookup_empty|].
    rewrite foldl_snoc. unfold addSensor at 1.
    destruct (sensor_ID x =? "")%string eqn:E; [done|].
    apply String.eqb_neq in E. cbn [sensor_ID].
    by rewrite lookup_insert_ne.
  - induction l as [|x l IH] using rev_ind;
      [simpl; by rewrite lookup_empty|].
    rewrite foldl_snoc, filter_app. unfold addSensor at 1.
    destruct (sensor_ID x =? "")%string eqn:E.
    + apply String.eqb_eq in E. rewrite IH.
      rewrite filter_cons_False by congruence.
      by rewrite filter_nil, app_nil_r.
    + cbn [sensor_ID]. destruct (decide (sensor_ID x = k)) as [<-|Hx].
      * rewrite lookup_insert_eq, filter_cons_True by done.
        by rewrite filter_nil, last_snoc.
      * rewrite lookup_insert_ne, IH by done.
        rewrite filter_cons_False by done.
        by rewrite filter_nil, app_nil_r.
Qed.

Lemma foldl_addBlower_lookup (l : list blower) (k : string) :
  foldl (addBlower mapUnicodeLower) ∅ l !! k =
    if decide (k = "") then None
    else storedBlower mapUnicodeLower
           <$> last (filter (fun v => blower_ID v = k) l).
Proof.
  destruct (decide (k = "")) as [->|Hk].
  - induction l as [|x l IH] using rev_ind;
      [simpl; by rewrite lookup_empty|].
    rewrite foldl_snoc. unfold addBlower at 1.
    destruct (blower_ID x =? "")%string eqn:E; [done|].
    apply String.eqb_neq in E. cbn [blower_ID].
    by rewrite lookup_insert_ne.
  - induction l as [|x l IH] using rev_ind;
      [simpl; by rewrite lookup_empty|].
    rewrite foldl_snoc, filter_app. unfold addBlower at 1.
    destruct (blower_ID x =? "")%string eqn:E.
    + apply String.eqb_eq in E. rewrite IH.
      rewrite filter_cons_False by congruence.
      by rewrite filter_nil, app_nil_r.
    + cbn [blower_ID]. destruct (decide (blower_ID x = k)) as [<-|Hx].
      * rewrite lookup_insert_eq, filter_cons_True by done.
        by rewrite filter_nil, last_snoc.
      * rewrite lookup_insert_ne, IH by done.
        rewrite filter_cons_False by done.
        by rewrite filter_nil, app_nil_r.
Qed.

(** X17. After a successful [recordMetrics] the sensor stored under an
    identifier is the last entry of the payload with that identifier, with
    its name cleaned and its temperature and blower as decoded; nothing is
    stored under the empty identifier; and the same for the blowers. *)
Theorem X17_recordMetrics_last_entry (c c' : collector) (rt : roundTrip) :
  recordMetrics json_Unmarshal mapUnicodeLower c rt = Done (c', None) ->
  exists s,
    getStokerStatus json_Unmarshal c rt = (Some s, None) /\
    (forall k,
       sensors c' !! k =
         if decide (k = "") then None
         else storedSensor mapUnicodeLower
                <$> last (filter (fun v => sensor_ID v = k) (Sensors s))) /\
    (forall k,
       blowers c' !! k =
         if decide (k = "") then None
         else storedBlower mapUnicodeLower
                <$> last (filter (fun v => blower_ID v = k) (Blowers s))).
Proof.
  intros Hrun.
  destruct (recordMetrics_done json_Unmarshal mapUnicodeLower c c' rt Hrun)
    as (s & Hs & ->).
  exists s. split; [done|]. simpl. split.
  - apply foldl_addSensor_lookup.
  - apply foldl_addBlower_lookup.
Qed.

Lemma nameChar_byte (ch : ascii) :
  nameChar ch = true ->
  isASCII ch = true /\ Ascii.eqb ch " " = false /\ lowerByte ch = ch.
Proof.
  destruct ch as [[] [] [] [] [] [] [] []]; vm_compute;
    first [discriminate | done].
Qed.

Lemma cleanName_fixed (s : string) :
  string_forallb nameChar s = true -> clean s = s.
Proof.
  intros H. rewrite cleanName_filter.
  assert (Hr : strings_Replace s " " "_" = s).
  { induction s as [|ch s IH]; simpl; [done|].
    simpl in H. apply andb_true_iff in H as [Hch Hs].
    destruct (nameChar_byte ch Hch) as (_ & -> & _). by rewrite IH. }
  assert (Ha : string_forallb isASCII s = true).
  { induction s as [|ch s IH]; simpl; [done|].
    simpl in H. apply andb_true_iff in H as [Hch Hs].
    destruct (nameChar_byte ch Hch) as (-> & _ & _). simpl. apply IH; [done|].
    simpl in Hr. by injection Hr. }
  rewrite Hr. unfold strings_ToLower. rewrite Ha. clear Hr Ha.
  induction s as [|ch s IH]; simpl; [done|].
  simpl in H. apply andb_true_iff in H as [Hch Hs].
  destruct (nameChar_byte ch Hch) as (_ & _ & ->). rewrite Hch.
  by rewrite IH.
Qed.

(** X18. A name that has only characters [a-z0-9_] is left as it is by
    [cleanName]; so cleaning a cleaned name changes nothing. *)
Theorem X18_cleanName_idempotent (s : string) :
  (string_forallb nameChar s = true -> cleanName mapUnicodeLower s = s) /\
  cleanName mapUnicodeLower (cleanName mapUnicodeLower s)
    = cleanName mapUnicodeLower s.
Proof.
  split; [apply cleanName_fixed|].
  apply cleanName_fixed, cleanName_nameChar.
Qed.

(** One cycle that returns: the attempt is counted and the failure count
    moves by at most one, and not past the attempts. *)
Lemma doMetrics_counters (c c' : collector) (rt : roundTrip) :
  cycle c rt = Done c' ->
  0 <= failures c <= collections c ->
  collections c < maxInt64 ->
  collections c' = collections c + 1 /\
  failures c <= failures c' <= failures c + 1 /\
  failures c' <= collections c'.
Proof.
  intros Hrun Hf Hc.
  assert (Hc1 : add64 (collections c) 1 = collections c + 1).
  { apply add64_exact. unfold isInt64, minInt64, maxInt64 in *. lia. }
  assert (Hf1 : add64 (failures c) 1 = failures c + 1).
  { apply add64_exact. unfold isInt64, minInt64, maxInt64 in *. lia. }
  assert (Hf0 : add64 (failures c) 0 = failures c).
  { rewrite add64_exact; [lia|].
    unfold isInt64, minInt64, maxInt64 in *. lia. }
  destruct (getStokerStatus_cases json_Unmarshal c rt)
    as [(status & body & -> & Hne) | [[s Hs] | [e He]]].
  - by rewrite doMetrics_non200 in Hrun.
  - rewrite (doMetrics_success _ _ _ _ _ Hs) in Hrun.
    injection Hrun as <-. simpl. rewrite Hc1, Hf0. lia.
  - rewrite (doMetrics_failure _ _ _ _ _ _ He) in Hrun.
    injection Hrun as <-. simpl. rewrite Hc1, Hf1. lia.
Qed.

(** X19. While the attempt counter does not overflow, [loop] over round
    trips that are all answered with status 200 or not at all returns with
    every round trip counted as an attempt, and with a failure count that
    has grown by at most their number and does not exceed the attempts. *)
Theorem X19_loop_counters (rts : list roundTrip) (c : collector) :
  Forall (fun rt => otherStatus rt = false) rts ->
  0 <= failures c <= collections c ->
  collections c + Z.of_nat (length rts) <= maxInt64 ->
  exists c',
    loop json_Unmarshal mapUnicodeLower c rts = Done c' /\
    collections c' = collections c + Z.of_nat (length rts) /\
    failures c <= failures c' <= failures c + Z.of_nat (length rts) /\
    failures c' <= collections c'.
Proof.
  intros Hall. revert c.
  induction Hall as [|rt rts Hrt Hall IH]; intros c Hf Hc.
  - exists c. simpl. split; [done|]. lia.
  - simpl length in Hc. simpl.
    assert (Hrun : exists c1, cycle c rt = Done c1).
    { destruct (getStokerStatus_cases json_Unmarshal c rt)
        as [Hbad | [[s Hs] | [e He]]].
      - apply otherStatus_true in Hbad. congruence.
      - eexists. by apply doMetrics_success.
      - eexists. by apply (doMetrics_failure _ _ c rt None e). }
    destruct Hrun as [c1 Hrun]. rewrite Hrun. simpl.
    destruct (doMetrics_counters c c1 rt Hrun Hf ltac:(lia))
      as (Hc1 & Hf1 & Hle).
    destruct (IH c1 ltac:(lia) ltac:(lia)) as (c' & Hloop & Hc' & Hf' & Hle').
    exists c'. split; [done|]. lia.
Qed.

(** X20. [loop] panics exactly when one of its round trips is answered
    with a status other than 200. *)
Theorem X20_loop_panics (rts : list roundTrip) (c : collector) :
  panics (loop json_Unmarshal mapUnicodeLower c rts)
    = existsb otherStatus rts.
Proof.
  revert c. induction rts as [|rt rts IH]; intros c; simpl; [done|].
  destruct (otherStatus rt) eqn:E.
  - apply otherStatus_true in E as (status & body & -> & Hne).
    by rewrite doMetrics_non200.
  - assert (Hrun : exists c1, cycle c rt = Done c1).
    { destruct (getStokerStatus_cases json_Unmarshal c rt)
        as [Hbad | [[s Hs] | [e He]]].
      - apply otherStatus_true in Hbad. congruence.
      - eexists. by apply doMetrics_success.
      - eexists. by apply (doMetrics_failure _ _ c rt None e). }
    destruct Hrun as [c1 ->]. simpl. apply IH.
Qed.

(** X21. A cycle that returns has logged nothing if the fetch succeeded,
    and one entry, "failed to record metrics" with the wrapped cause, if it
    failed. *)
Theorem X21_cycle_log (c c' : collector) (rt : roundTrip) :
  doMetrics json_Unmarshal mapUnicodeLower c rt = Done c' ->
  (exists s,
     getStokerStatus json_Unmarshal c rt = (Some s, None) /\
     logger c' = logger c) \/
  (exists e,
     getStokerStatus json_Unmarshal c rt = (None, Some e) /\
     logger c' =
       logger c ++
       [{| Zap.message := "failed to record metrics";
           Zap.fields :=
             [Zap.Error
                (Errors.withMessage e "failed to get stoker status" [])]
        |}]).
Proof.
  intros Hrun.
  destruct (getStokerStatus_cases json_Unmarshal c rt)
    as [(status & body & -> & Hne) | [[s Hs] | [e He]]].
  - by rewrite doMetrics_non200 in Hrun.
  - left. exists s. split; [done|].
    rewrite (doMetrics_success _ _ _ _ _ Hs) in Hrun. by injection Hrun as <-.
  - right. exists e. split; [done|].
    rewrite (doMetrics_failure _ _ _ _ _ _ He) in Hrun.
    by injection Hrun as <-.
Qed.

End PollingFacts.

(* ===================================================================== *)
(** * The first program and the collector on the same lines               *)
(* ===================================================================== *)

Section DumpFacts.
Import Go.

Variable ParseFloat : string -> Z -> float64 * option Errors.error.

(** What the first program prints for one line. *)
Lemma Dump_reader_cons (line : string) (rest : list string)
    (out : list string) :
  exists printed,
    Dump.reader (line :: rest) out = Dump.reader rest (out ++ printed) /\
    (length printed <= 1)%nat /\
    ((length (strings_Split line " ") < 11)%nat -> printed = []) /\
    Forall (fun s => exists tok,
              strings_Split line " " !! 9%nat = Some tok /\
              (s = Dump.fmt_Println "food: " tok \/
               s = Dump.fmt_Println "pit: " tok)) printed.
Proof.
  simpl. set (parts := strings_Split line " ").
  destruct (length parts =? 11)%nat eqn:E11.
  - apply Nat.eqb_eq in E11.
    destruct (lookup_lt_length parts 9) as [p9 H9]; [lia|].
    rewrite (index_Some _ _ _ H9). simpl.
    exists [Dump.fmt_Println "food: " p9]. split; [done|].
    split; [simpl; lia|]. split; [lia|].
    constructor; [|done]. exists p9. split; [done|by left].
  - apply Nat.eqb_neq in E11.
    destruct (11 <? length parts)%nat eqn:Egt.
    + apply Nat.ltb_lt in Egt.
      destruct (lookup_lt_length parts 10) as [p10 H10]; [lia|].
      destruct (lookup_lt_length parts 9) as [p9 H9]; [lia|].
      rewrite (index_Some _ _ _ H10). simpl.
      destruct (p10 =? "PID:")%string.
      * rewrite (index_Some _ _ _ H9). simpl.
        exists [Dump.fmt_Println "pit: " p9]. split; [done|].
        split; [simpl; lia|]. split; [lia|].
        constructor; [|done]. exists p9. split; [done|by right].
      * exists []. rewrite app_nil_r. split; [done|].
        split; [simpl; lia|]. split; done.
    + exists []. rewrite app_nil_r. simpl. split; [done|].
      split; [lia|]. split; done.
Qed.

(** X22. The first program never indexes out of range: on every finite
    stream [reader] returns, having printed after what was printed at most
    one line for each line read, each a "food: " or a "pit: " line. *)
Theorem X22_dump_reader (lines : list string) (out : list string) :
  exists printed,
    Dump.reader lines out = Done (out ++ printed) /\
    (length printed <= length lines)%nat /\
    Forall (fun s => exists tok,
              s = Dump.fmt_Println "food: " tok \/
              s = Dump.fmt_Println "pit: " tok) printed.
Proof.
  revert out. induction lines as [|line rest IH]; intros out.
  - exists []. simpl. rewrite app_nil_r. split; [done|]. split; [lia|done].
  - destruct (Dump_reader_cons line rest out) as (p1 & Hrun & Hlen & _ & Hp1).
    destruct (IH (out ++ p1)) as (p2 & Hrest & Hlen2 & Hp2).
    exists (p1 ++ p2). rewrite Hrun, Hrest, (assoc_L (++)), length_app.
    split; [done|]. split; [simpl; lia|].
    apply Forall_app. split; [|done].
    eapply Forall_impl; [exact Hp1|]. intros s (tok & _ & H). by exists tok.
Qed.

(** X23. For a record that the collector applies, the first program prints
    one line, with the kind the collector gives the record; it prints
    token 9 where the collector stores what token 8 parses to. *)
Theorem X23_dump_and_setTemp (line : string) (id kind : string)
    (t : float64) (out : list string) :
  Telnet.validRecord ParseFloat (strings_Split line " ") id kind t ->
  exists tok8 tok9,
    strings_Split line " " !! 8%nat = Some tok8 /\
    strings_Split line " " !! 9%nat = Some tok9 /\
    ParseFloat tok8 32 = (t, None) /\
    Dump.reader [line] out
      = Done (out ++ [Dump.fmt_Println (kind +:+ ": ") tok9]).
Proof.
  intros (id0 & tok8 & H0 & Hsuf & -> & Hshape & H8 & Hpf).
  assert (Hlen : (11 <= length (strings_Split line " "))%nat).
  { destruct Hshape as [[-> _] | [Hlt _]]; lia. }
  destruct (lookup_lt_length (strings_Split line " ") 9) as [tok9 H9]; [lia|].
  exists tok8, tok9. split; [done|]. split; [done|]. split; [done|].
  simpl. destruct Hshape as [[H11 ->] | (Hgt & H10 & ->)].
  - rewrite H11. simpl. rewrite (index_Some _ _ _ H9). reflexivity.
  - destruct (length (strings_Split line " ") =? 11)%nat eqn:E11;
      [apply Nat.eqb_eq in E11; lia|].
    destruct (11 <? length (strings_Split line " "))%nat eqn:Egt;
      [|apply Nat.ltb_ge in Egt; lia].
    rewrite (index_Some _ _ _ H10). simpl.
    rewrite (index_Some _ _ _ H9). reflexivity.
Qed.

(** X24. Failures of different categories are counted independently: the
    order in which two of them are recorded does not matter. *)
Theorem X24_addError_commute (t u : string) (c : Telnet.collector) :
  t <> u ->
  Telnet.addError t (Telnet.addError u c)
    = Telnet.addError u (Telnet.addError t c).
Proof.
  intros Hne. unfold Telnet.addError, Telnet.with_collectErrors. simpl.
  rewrite !lookup_insert_ne by done. f_equal. by apply insert_insert_ne.
Qed.

End DumpFacts.

(* ===================================================================== *)
(** * The theorems above on the samples                                   *)
(* ===================================================================== *)

Lemma X3_setTemp_error_by_record_witness :
  Telnet.setTemp Strconv.ParseFloat
    (Go.strings_Split Sample.unknownLine " ") Sample.telnet0
    = Go.Done (Telnet.addError "unknownProbe" Sample.telnet0,
               Some (Errors.Errorf "unknown probe type %q"
                       [Errors.ArgString "XYZ:"])) /\
  exists c2',
    Telnet.setTemp Strconv.ParseFloat
      (Go.strings_Split Sample.unknownLine " ")
      (Telnet.addError "dial" Sample.telnet0)
      = Go.Done (c2', Some (Errors.Errorf "unknown probe type %q"
                              [Errors.ArgString "XYZ:"])).
Proof.
  assert (H : Telnet.setTemp Strconv.ParseFloat
                (Go.strings_Split Sample.unknownLine " ") Sample.telnet0
              = Go.Done (Telnet.addError "unknownProbe" Sample.telnet0,
                         Some (Errors.Errorf "unknown probe type %q"
                                 [Errors.ArgString "XYZ:"])))
    by reflexivity.
  split; [exact H|].
  exact (X3_setTemp_error_by_record Strconv.ParseFloat _ _ _
           (Telnet.addError "dial" Sample.telnet0) _ H).
Defined.

Lemma X4_valid_record_frame_witness :
  let parts := Go.strings_Split Sample.foodLine11 " " in
  let t := (Strconv.ParseFloat "0.3" 32).1 in
  Telnet.validRecord Strconv.ParseFloat parts "2B0000110A442730" "food" t /\
  exists c',
    Telnet.setTemp Strconv.ParseFloat parts Sample.telnet0
      = Go.Done (c', None) /\
    (forall k, k <> "2B0000110A442730" ->
       Telnet.probes c' !! k = Telnet.probes Sample.telnet0 !! k) /\
    dom (Telnet.probes c')
      = {[ "2B0000110A442730" ]} ∪ dom (Telnet.probes Sample.telnet0) /\
    Telnet.collectErrors c' = Telnet.collectErrors Sample.telnet0 /\
    Telnet.logger c' = Telnet.logger Sample.telnet0.
Proof.
  intros parts t. split; [exact foodLine11_valid|].
  exact (X4_valid_record_frame Strconv.ParseFloat parts "2B0000110A442730"
           "food" t Sample.telnet0 foodLine11_valid).
Defined.

Lemma X9_reconnects_witness :
  let t := (Strconv.ParseFloat "0.3" 32).1 in
  let c := Telnet.recordReading "2B0000110A442730" "food" t Sample.telnet0 in
  let p := {| Telnet.id := "2B0000110A442730";
              Telnet.probeType := "food";
              Telnet.temperature := t;
              Telnet.blower := "unknown";
              Telnet.collections := 1 |} in
  let dials := [Telnet.DialFailed (Errors.errorString "i/o timeout");
                Telnet.Connected [Sample.foodAsPitLine]
                  (Errors.errorString "EOF");
                Telnet.DialFailed (Errors.errorString "i/o timeout")] in
  (Telnet.probes c !! "2B0000110A442730" = Some p /\
   Go.isInt64 (Telnet.errorCount c "dial")) /\
  exists c' p',
    Telnet.connectLoop Strconv.ParseFloat dials c = Go.Done c' /\
    Telnet.probes c' !! "2B0000110A442730" = Some p' /\
    Telnet.probeType p' = "food" /\
    Telnet.errorCount c' "dial" = 2.
Proof.
  intros t c p dials.
  assert (Hp : Telnet.probes c !! "2B0000110A442730" = Some p)
    by reflexivity.
  assert (Hr : Go.isInt64 (Telnet.errorCount c "dial")).
  { vm_compute. split; discriminate. }
  split; [done|].
  destruct (X9_reconnects Strconv.ParseFloat dials c "2B0000110A442730" p
              Hp Hr) as (c' & p' & Hrun & Hp' & Hk & Hn).
  exists c', p'. split; [exact Hrun|]. split; [exact Hp'|].
  split; [exact Hk|]. rewrite Hn. reflexivity.
Defined.

Lemma Sample_label_cardinality (d : Prometheus.Desc)
    (t : Prometheus.ValueType) (v : Go.float64) (labelValues : list string) :
  length labelValues = length (Prometheus.variableLabels d) ->
  (Sample.NewConstMetric d t v labelValues).2 = None.
Proof.
  intros H. unfold Sample.NewConstMetric. by rewrite H, Nat.eqb_refl.
Qed.

Lemma X14_Collect_label_cardinality_witness :
  let c := Telnet.recordReading "2B0000110A442730" "food"
             (Strconv.ParseFloat "0.3" 32).1
             (Telnet.addError "dial" Sample.telnet0) in
  (forall d t v labelValues,
     length labelValues = length (Prometheus.variableLabels d) ->
     (Sample.NewConstMetric d t v labelValues).2 = None) /\
  exists sent,
    Telnet.Collect Sample.NewConstMetric c [] = (c, sent) /\
    length sent = 3%nat.
Proof.
  intros c. split; [exact Sample_label_cardinality|].
  destruct (X14_Collect_label_cardinality Sample.NewConstMetric
              Sample_label_cardinality (Telnet.probes c)
              (Telnet.collectErrors c) (Telnet.logger c) [])
    as (sent & Hrun & Hlen).
  exists sent. split; [exact Hrun|]. rewrite Hlen. reflexivity.
Defined.

Lemma X15_createMetrics_label_cardinality_witness :
  let c := Json.with_maps Sample.json0
             (foldl (Json.addSensor Sample.mapUnicodeLower) ∅
                [Sample.pitSensor])
             (foldl (Json.addBlower Sample.mapUnicodeLower) ∅
                [Sample.eggBlower]) in
  (forall d t v labelValues,
     length labelValues = length (Prometheus.variableLabels d) ->
     (Sample.NewConstMetric d t v labelValues).2 = None) /\
  exists mf mc rest,
    Json.createMetrics Sample.NewConstMetric c = (c, mf :: mc :: rest) /\
    length rest = 2%nat.
Proof.
  intros c. split; [exact Sample_label_cardinality|].
  destruct (X15_createMetrics_label_cardinality Sample.NewConstMetric
              Sample_label_cardinality (Json.sensors c) (Json.blowers c)
              0 0 [])
    as (mf & mc & rest & Hrun & _ & _ & Hlen).
  exists mf, mc, rest. split; [exact Hrun|]. rewrite Hlen. reflexivity.
Defined.

Lemma X17_recordMetrics_last_entry_witness :
  exists c',
    Json.recordMetrics Sample.json_Unmarshal Sample.mapUnicodeLower
      Sample.json0 (Json.Responded 200 (Sample.onePitJson, None))
      = Go.Done (c', None) /\
    Json.sensors c' !! "2A0000110A314B30"
      = Some (Json.storedSensor Sample.mapUnicodeLower Sample.pitSensor) /\
    Json.sensors c' !! "" = None.
Proof.
  eexists. split; [reflexivity|].
  destruct (X17_recordMetrics_last_entry Sample.json_Unmarshal
              Sample.mapUnicodeLower Sample.json0 _
              (Json.Responded 200 (Sample.onePitJson, None)) eq_refl)
    as (s & Hs & Hsens & _).
  injection Hs as <-. split.
  - rewrite Hsens. reflexivity.
  - rewrite Hsens. reflexivity.
Defined.

Lemma X19_loop_counters_witness :
  let rts := [Json.Responded 200 (Sample.onePitJson, None);
              Json.DoFailed (Errors.errorString "i/o timeout");
              Json.Responded 200 (Sample.noSensorsJson, None)] in
  (Forall (fun rt => Json.otherStatus rt = false) rts /\
   0 <= Json.failures Sample.json0 <= Json.collections Sample.json0 /\
   Json.collections Sample.json0 + Z.of_nat (length rts) <= Go.maxInt64) /\
  exists c',
    Json.loop Sample.json_Unmarshal Sample.mapUnicodeLower Sample.json0 rts
      = Go.Done c' /\
    Json.collections c' = 3 /\
    Json.failures c' <= 3.
Proof.
  intros rts.
  assert (H1 : Forall (fun rt => Json.otherStatus rt = false) rts)
    by (repeat constructor).
  assert (H2 : 0 <= Json.failures Sample.json0
               <= Json.collections Sample.json0) by (simpl; lia).
  assert (H3 : Json.collections Sample.json0 + Z.of_nat (length rts)
               <= Go.maxInt64) by (vm_compute; discriminate).
  split; [done|].
  destruct (X19_loop_counters Sample.json_Unmarshal Sample.mapUnicodeLower
              rts Sample.json0 H1 H2 H3) as (c' & Hrun & Hc & Hf & _).
  exists c'. split; [exact Hrun|]. split; [exact Hc|].
  destruct Hf as [_ Hf]. exact Hf.
Defined.

Lemma X21_cycle_log_witness :
  exists c',
    Json.doMetrics Sample.json_Unmarshal Sample.mapUnicodeLower Sample.json0
      (Json.Responded 200 (Sample.noSensorsJson, None)) = Go.Done c' /\
    length (Json.logger c') = 1%nat.
Proof.
  eexists. split; [reflexivity|].
  destruct (X21_cycle_log Sample.json_Unmarshal Sample.mapUnicodeLower
              Sample.json0 _
              (Json.Responded 200 (Sample.noSensorsJson, None)) eq_refl)
    as [(s & Hs & _) | (e & _ & Hlog)].
  - discriminate Hs.
  - rewrite Hlog. reflexivity.
Defined.

Lemma X23_dump_and_setTemp_witness :
  let t := (Strconv.ParseFloat "0.3" 32).1 in
  Telnet.validRecord Strconv.ParseFloat
    (Go.strings_Split Sample.foodLine11 " ") "2B0000110A442730" "food" t /\
  Dump.reader [Sample.foodLine11] [] = Go.Done ["food:  32.4"].
Proof.
  intros t. split; [exact foodLine11_valid|].
  destruct (X23_dump_and_setTemp Strconv.ParseFloat Sample.foodLine11
              "2B0000110A442730" "food" t [] foodLine11_valid)
    as (tok8 & tok9 & _ & H9 & _ & Hrun).
  assert (Ht : tok9 = "32.4") by (vm_compute in H9; congruence).
  subst tok9. exact Hrun.
Defined.

Lemma X24_addError_commute_witness :
  "dial" <> "readLine" /\
  Telnet.addError "dial" (Telnet.addError "readLine" Sample.telnet0)
    = Telnet.addError "readLine" (Telnet.addError "dial" Sample.telnet0).
Proof.
  assert (H : "dial" <> "readLine") by discriminate.
  split; [exact H|].
  exact (X24_addError_commute "dial" "readLine" Sample.telnet0 H).
Defined.
